(** * PySiteTools: the [sindex] interface to the Sindex native library

    A shallow embedding of [sindex/sindex_interface.py].  The module is a
    layer of [ctypes] calls into [sindex64.dll]: every wrapper marshals its
    arguments, calls one entry point of the library, inspects the status
    and writes one record to a module-level logger.  The native library is
    a record of functions here; the wrappers are transcribed one by one. *)

From Stdlib Require Import ZArith Lia List SpecFloat.
From stdpp Require Import base gmap list strings.
Import ListNotations.

Local Open Scope string_scope.
Local Open Scope Z_scope.

(** ** The [ctypes] scalar types *)

Module Ctypes.

(** [wrap_signed w z]: the value a signed [w]-bit C integer holds after
    [z] is stored in it (two's complement truncation). *)
Definition wrap_signed (w : Z) (z : Z) : Z :=
  let m := 2 ^ w in
  let r := z mod m in
  if r <? 2 ^ (w - 1) then r else r - m.

(** [c_short(v)] and a [restype] of [c_short]: no overflow check, the
    low 16 bits are kept. *)
Definition c_short (z : Z) : Z := wrap_signed 16 z.

(** A [restype] of [c_int]. *)
Definition c_int (z : Z) : Z := wrap_signed 32 z.

(** A [c_double] holds a binary64 value; Python's [float] is the same
    type, so the conversion is the identity. *)
Definition c_double (f : spec_float) : spec_float := f.

Definition float_zero : spec_float := S754_zero false.
Definition float_neg_inf : spec_float := S754_infinity true.

End Ctypes.
Export Ctypes.

(** ** Outcomes of a Python call, and the two module-level loggers *)

Inductive PyExn : Type :=
| AttributeError      (* method call on [None] *)
| UnicodeDecodeError  (* [bytes.decode] on ill-formed UTF-8 *)
| TypeError.          (* [c_char] given an integer outside 0..255 *)

Inductive PyResult (A : Type) : Type :=
| Return (a : A)
| Raise (e : PyExn).
Arguments Return {A} a.
Arguments Raise {A} e.

(** An interpolated field of an f-string, kept unrendered. *)
Inductive PyArg : Type :=
| AInt (z : Z)
| AFloat (f : spec_float)
| AStr (s : list N).

(** One record handed to a logger.
    - [Debug call args res] is [log.debug(f"call(args) -> {res}")];
    - [DebugText t] is [log.debug(t)] with a literal [t];
    - [Error call args msg] is
      [error_log.error(f"call(args) -> Error: {msg}")]. *)
Inductive LogRecord : Type :=
| Debug (call : string) (args : list PyArg) (res : PyArg)
| DebugText (text : string)
| Error (call : string) (args : list PyArg) (msg : string).

Inductive Logger : Type := sindex_log | sindex_error.

Definition logger_of (r : LogRecord) : Logger :=
  match r with
  | Debug _ _ _ | DebugText _ => sindex_log
  | Error _ _ _ => sindex_error
  end.

(** A computation: its outcome and the records it logged, in order. *)
Definition Py (A : Type) : Type := PyResult A * list LogRecord.

Definition ret {A} (a : A) : Py A := (Return a, []).
Definition raise {A} (e : PyExn) : Py A := (Raise e, []).
Definition emit (r : LogRecord) : Py unit := (Return tt, [r]).

Definition bind {A B} (c : Py A) (k : A -> Py B) : Py B :=
  match c with
  | (Return a, l) => let '(r, l') := k a in (r, (l ++ l')%list)
  | (Raise e, l) => (Raise e, l)
  end.

Notation "'call' x <- c ; k" := (bind c (fun x => k))
  (at level 10, x name, c at level 100, k at level 200).
Notation "'exec' c ; k" := (bind c (fun _ => k))
  (at level 10, c at level 100, k at level 200).

Definition outcome {A} (c : Py A) : PyResult A := fst c.
Definition logged {A} (c : Py A) : list LogRecord := snd c.

(** ** [get_sindex_err_msg] *)

Definition error_messages : gmap Z string :=
  list_to_map
    [ (-1, "site index <= 1.3");
      (-2, "bhage < 0.5 (for GI)");
      (-3, "bhage > GI range");
      (-4, "no answer was generated");
      (-5, "input curve is not a valid curve index");
      (-6, "site class is unknown");
      (-7, "FIZ code is unknown");
      (-8, "species code is unknown");
      (-9, "total age and GI curve");
      (-10, "source species index is not valid, or no conversion");
      (-11, "unknown age type");
      (-12, "input parameter is not a valid establishment type") ].

Definition get_sindex_err_msg (error_code : Z) : string :=
  default "unknown issue" (error_messages !! error_code).

(** The table of the docstring, written as a case analysis on the code. *)
Definition documented_message (error_code : Z) : string :=
  match error_code with
  | -1 => "site index <= 1.3"
  | -2 => "bhage < 0.5 (for GI)"
  | -3 => "bhage > GI range"
  | -4 => "no answer was generated"
  | -5 => "input curve is not a valid curve index"
  | -6 => "site class is unknown"
  | -7 => "FIZ code is unknown"
  | -8 => "species code is unknown"
  | -9 => "total age and GI curve"
  | -10 => "source species index is not valid, or no conversion"
  | -11 => "unknown age type"
  | -12 => "input parameter is not a valid establishment type"
  | _ => "unknown issue"
  end.


(** ** Strings crossing the boundary

    A [restype] of [c_char_p] turns a null pointer into [None] and any
    other pointer into the [bytes] up to the first NUL; the wrappers then
    call [.decode()] (UTF-8, strict) and [.strip()] on it.  A Python [str]
    is a list of code points. *)

Definition PyStr : Type := list N.

Fixpoint take_while {A} (p : A -> bool) (l : list A) : list A :=
  match l with
  | [] => []
  | x :: t => if p x then x :: take_while p t else []
  end.

Fixpoint drop_while {A} (p : A -> bool) (l : list A) : list A :=
  match l with
  | [] => []
  | x :: t => if p x then drop_while p t else l
  end.

Definition c_char_p (p : option (list Byte.byte)) : option (list N) :=
  match p with
  | None => None
  | Some mem =>
      Some (take_while (fun b => negb (N.eqb b 0)) (map Byte.to_N mem))
  end.

Definition is_cont (b : N) : bool := (0x80 <=? b)%N && (b <=? 0xBF)%N.
Definition in_range (lo hi b : N) : bool := (lo <=? b)%N && (b <=? hi)%N.
Definition low6 (b : N) : N := N.land b 0x3F.

(** Well-formed two-, three- and four-byte sequences (Unicode, table 3-7):
    no overlong forms, no surrogates, nothing above U+10FFFF. *)
Definition seq2 (b0 b1 : N) : bool := in_range 0xC2 0xDF b0 && is_cont b1.

Definition seq3 (b0 b1 b2 : N) : bool :=
  ((N.eqb b0 0xE0 && in_range 0xA0 0xBF b1)
   || (in_range 0xE1 0xEC b0 && is_cont b1)
   || (N.eqb b0 0xED && in_range 0x80 0x9F b1)
   || (in_range 0xEE 0xEF b0 && is_cont b1))
  && is_cont b2.

Definition seq4 (b0 b1 b2 b3 : N) : bool :=
  ((N.eqb b0 0xF0 && in_range 0x90 0xBF b1)
   || (in_range 0xF1 0xF3 b0 && is_cont b1)
   || (N.eqb b0 0xF4 && in_range 0x80 0x8F b1))
  && is_cont b2 && is_cont b3.

Fixpoint utf8_decode (bs : list N) : option PyStr :=
  match bs with
  | [] => Some []
  | b0 :: t0 =>
      if (b0 <? 0x80)%N then cons b0 <$> utf8_decode t0
      else
        match t0 with
        | [] => None
        | b1 :: t1 =>
            if seq2 b0 b1 then
              cons (N.lor (N.shiftl (N.land b0 0x1F) 6) (low6 b1))
                <$> utf8_decode t1
            else
              match t1 with
              | [] => None
              | b2 :: t2 =>
                  if seq3 b0 b1 b2 then
                    cons (N.lor (N.shiftl (N.land b0 0x0F) 12)
                            (N.lor (N.shiftl (low6 b1) 6) (low6 b2)))
                      <$> utf8_decode t2
                  else
                    match t2 with
                    | [] => None
                    | b3 :: t3 =>
                        if seq4 b0 b1 b2 b3 then
                          cons (N.lor (N.shiftl (N.land b0 0x07) 18)
                                  (N.lor (N.shiftl (low6 b1) 12)
                                     (N.lor (N.shiftl (low6 b2) 6) (low6 b3))))
                            <$> utf8_decode t3
                        else None
                    end
              end
        end
  end.

(** The code points [str.strip()] removes. *)
Definition isspace (c : N) : bool :=
  in_range 0x09 0x0D c || in_range 0x1C 0x20 c
  || N.eqb c 0x85 || N.eqb c 0xA0 || N.eqb c 0x1680
  || in_range 0x2000 0x200A c || in_range 0x2028 0x2029 c
  || N.eqb c 0x202F || N.eqb c 0x205F || N.eqb c 0x3000.

Definition lstrip (s : PyStr) : PyStr := drop_while isspace s.
Definition strip (s : PyStr) : PyStr := rev (lstrip (rev (lstrip s))).

(** [p.decode().strip()] for the value [p] of a [c_char_p] result. *)
Definition decode_strip (p : option (list N)) : Py PyStr :=
  match p with
  | None => raise AttributeError
  | Some bs =>
      match utf8_decode bs with
      | None => raise UnicodeDecodeError
      | Some s => ret (strip s)
      end
  end.

(** [c_char(v)] for an integer [v]: one byte, or [TypeError]. *)
Definition c_char (v : Z) : Py Z :=
  if (0 <=? v) && (v <? 256) then ret v else raise TypeError.

(** ** The native library

    One field per entry point that the wrappers bind.  An entry point
    returning [short] or [int] yields the integer left in the return
    register, which the declared [restype] then truncates; one returning
    [char *] yields a null pointer or the bytes stored at the address; one
    taking a [double *] receives the content of the cell and yields the
    status together with the content it leaves there. *)

Record SindexDLL : Type := {
  Sindex_FirstSpecies : Z;
  Sindex_NextSpecies : Z -> Z;
  Sindex_SpecCode : Z -> option (list Byte.byte);
  Sindex_SpecName : Z -> option (list Byte.byte);
  Sindex_DefCurve : Z -> Z;
  Sindex_DefCurveEst : Z -> Z -> Z;
  Sindex_DefGICurve : Z -> Z;
  Sindex_FirstCurve : Z -> Z;
  Sindex_NextCurve : Z -> Z -> Z;
  Sindex_CurveName : Z -> option (list Byte.byte);
  Sindex_CurveSource : Z -> option (list Byte.byte);
  Sindex_CurveNotes : Z -> option (list Byte.byte);
  Sindex_HtAgeToSI :
    Z -> spec_float -> Z -> spec_float -> Z -> spec_float -> Z * spec_float;
  Sindex_HtSIToAge :
    Z -> spec_float -> Z -> spec_float -> spec_float -> spec_float
    -> Z * spec_float;
  Sindex_AgeSIToHt :
    Z -> spec_float -> Z -> spec_float -> spec_float -> spec_float
    -> Z * spec_float;
  Sindex_Y2BH : Z -> spec_float -> spec_float -> Z * spec_float;
  Sindex_SIToSI : Z -> spec_float -> Z -> spec_float -> Z * spec_float;
  Sindex_SCToSI : Z -> Z -> Z -> spec_float -> Z * spec_float
}.

(** ** The wrappers *)

Section Wrappers.

Variable sindex_dll : SindexDLL.

Definition get_first_species : Py Z :=
  let result := c_short (Sindex_FirstSpecies sindex_dll) in
  if result <? 0 then
    let msg := get_sindex_err_msg result in
    exec emit (Error "Sindex_FirstSpecies" [] msg);
    ret (-1)
  else
    exec emit (Debug "Sindex_FirstSpecies" [] (AInt result));
    ret result.

Definition get_next_species (idx : Z) : Py Z :=
  let result := c_short (Sindex_NextSpecies sindex_dll (c_short idx)) in
  if result =? -4 then
    exec emit (DebugText "Sindex_NextSpecies() -> Last defined species index");
    ret (-1)
  else if result <? 0 then
    let msg := get_sindex_err_msg result in
    exec emit (Error "Sindex_NextSpecies" [AInt idx] msg);
    ret (-1)
  else
    exec emit (Debug "Sindex_NextSpecies" [AInt idx] (AInt result));
    ret result.

Definition get_species_code (species_idx : Z) : Py PyStr :=
  call result <-
    decode_strip (c_char_p (Sindex_SpecCode sindex_dll (c_short species_idx)));
  exec emit (Debug "Sindex_SpecCode" [AInt species_idx] (AStr result));
  ret result.

Definition get_species_name (species_idx : Z) : Py PyStr :=
  call result <-
    decode_strip (c_char_p (Sindex_SpecName sindex_dll (c_short species_idx)));
  exec emit (Debug "Sindex_SpecName" [AInt species_idx] (AStr result));
  ret result.

Definition get_def_curve (species_idx : Z) : Py Z :=
  let result := c_short (Sindex_DefCurve sindex_dll (c_short species_idx)) in
  if result <? 0 then
    let msg := get_sindex_err_msg result in
    exec emit (Error "Sindex_DefCurve" [AInt species_idx] msg);
    ret (-1)
  else
    exec emit (Debug "Sindex_DefCurve" [AInt species_idx] (AInt result));
    ret result.

Definition get_def_curve_est (species_idx regen_type : Z) : Py Z :=
  let result :=
    c_short (Sindex_DefCurveEst sindex_dll
               (c_short species_idx) (c_short regen_type)) in
  if result <? 0 then
    let msg := get_sindex_err_msg result in
    exec emit (Error "Sindex_DefCurveEst"
                 [AInt species_idx; AInt regen_type] msg);
    ret (-1)
  else
    exec emit (Debug "Sindex_DefCurveEst"
                 [AInt species_idx; AInt regen_type] (AInt result));
    ret result.

Definition get_def_gi_curve (species_idx : Z) : Py Z :=
  let result := c_short (Sindex_DefGICurve sindex_dll (c_short species_idx)) in
  if result <? 0 then
    let msg := get_sindex_err_msg result in
    exec emit (Error "Sindex_DefGICurve" [AInt species_idx] msg);
    ret (-1)
  else
    exec emit (Debug "Sindex_DefGICurve" [AInt species_idx] (AInt result));
    ret result.

Definition get_first_curve (species_idx : Z) : Py Z :=
  let result := c_short (Sindex_FirstCurve sindex_dll (c_short species_idx)) in
  if result <? 0 then
    let msg := get_sindex_err_msg result in
    exec emit (Error "Sindex_FirstCurve" [AInt species_idx] msg);
    ret (-1)
  else
    exec emit (Debug "Sindex_FirstCurve" [AInt species_idx] (AInt result));
    ret result.

Definition get_next_curve (species_idx curve_idx : Z) : Py Z :=
  let result :=
    c_short (Sindex_NextCurve sindex_dll
               (c_short species_idx) (c_short curve_idx)) in
  if result =? -4 then
    exec emit (DebugText
      "Sindex_NextCurve() -> Last defined curve index for this species");
    ret (-1)
  else if result <? 0 then
    let msg := get_sindex_err_msg result in
    exec emit (Error "Sindex_NextCurve"
                 [AInt species_idx; AInt curve_idx] msg);
    ret (-1)
  else
    exec emit (Debug "Sindex_NextCurve"
                 [AInt species_idx; AInt curve_idx] (AInt result));
    ret result.

Definition get_curve_name (curve_idx : Z) : Py PyStr :=
  call result <-
    decode_strip (c_char_p (Sindex_CurveName sindex_dll (c_short curve_idx)));
  exec emit (Debug "Sindex_CurveName" [AInt curve_idx] (AStr result));
  ret result.

Definition get_curve_source (curve_idx : Z) : Py PyStr :=
  call result <-
    decode_strip (c_char_p (Sindex_CurveSource sindex_dll (c_short curve_idx)));
  exec emit (Debug "Sindex_CurveSource" [AInt curve_idx] (AStr result));
  ret result.

Definition get_curve_notes (curve_idx : Z) : Py PyStr :=
  call result <-
    decode_strip (c_char_p (Sindex_CurveNotes sindex_dll (c_short curve_idx)));
  exec emit (Debug "Sindex_CurveNotes" [AInt curve_idx] (AStr result));
  ret result.

Definition calc_site (species_idx : Z) (height age : spec_float)
    (use_bh estimate_type : Z) : Py spec_float :=
  let site := c_double float_zero in
  let '(status, site) :=
    Sindex_HtAgeToSI sindex_dll (c_short species_idx) (c_double age)
      (c_short use_bh) (c_double height) (c_short estimate_type) site in
  let result := c_int status in
  if result <? 0 then
    let msg := get_sindex_err_msg result in
    exec emit (Error "Sindex_HtAgeToSI"
                 [AInt species_idx; AFloat age; AInt use_bh; AFloat height;
                  AInt estimate_type] msg);
    ret float_neg_inf
  else
    exec emit (Debug "Sindex_HtAgeToSI"
                 [AInt species_idx; AFloat age; AInt use_bh; AFloat height;
                  AInt estimate_type] (AFloat site));
    ret site.

Definition calc_age (curve_idx : Z)
    (site_index height yrs_to_breast_height : spec_float) (use_bh : Z)
    : Py spec_float :=
  let age := c_double float_zero in
  let '(status, age) :=
    Sindex_HtSIToAge sindex_dll (c_short curve_idx) (c_double height)
      (c_short use_bh) (c_double site_index) (c_double yrs_to_breast_height)
      age in
  let result := c_int status in
  if result <? 0 then
    let msg := get_sindex_err_msg result in
    exec emit (Error "Sindex_HtSIToAge"
                 [AInt curve_idx; AFloat height; AInt use_bh;
                  AFloat site_index; AFloat yrs_to_breast_height] msg);
    ret float_neg_inf
  else
    exec emit (Debug "Sindex_HtSIToAge"
                 [AInt curve_idx; AFloat height; AInt use_bh;
                  AFloat site_index; AFloat yrs_to_breast_height]
                 (AFloat age));
    ret age.

Definition calc_height (curve_idx : Z)
    (site_index age yrs_to_breast_height : spec_float) (use_bh : Z)
    : Py spec_float :=
  let height := c_double float_zero in
  let '(status, height) :=
    Sindex_AgeSIToHt sindex_dll (c_short curve_idx) (c_double age)
      (c_short use_bh) (c_double site_index) (c_double yrs_to_breast_height)
      height in
  let result := c_int status in
  if result <? 0 then
    let msg := get_sindex_err_msg result in
    exec emit (Error "Sindex_AgeSIToHt"
                 [AInt curve_idx; AFloat age; AInt use_bh;
                  AFloat site_index; AFloat yrs_to_breast_height] msg);
    ret float_neg_inf
  else
    exec emit (Debug "Sindex_AgeSIToHt"
                 [AInt curve_idx; AFloat age; AInt use_bh;
                  AFloat site_index; AFloat yrs_to_breast_height]
                 (AFloat height));
    ret height.

Definition calc_y2bh (curve_idx : Z) (site_index : spec_float)
    : Py spec_float :=
  let yrs_to_breast_height := c_double float_zero in
  let '(status, yrs_to_breast_height) :=
    Sindex_Y2BH sindex_dll (c_short curve_idx) (c_double site_index)
      yrs_to_breast_height in
  let result := c_int status in
  if result <? 0 then
    let msg := get_sindex_err_msg result in
    exec emit (Error "Sindex_Y2BH" [AInt curve_idx; AFloat site_index] msg);
    ret float_neg_inf
  else
    exec emit (Debug "Sindex_Y2BH" [AInt curve_idx; AFloat site_index]
                 (AFloat yrs_to_breast_height));
    ret yrs_to_breast_height.

Definition calc_convert_site (spec_idx : Z) (site_index : spec_float)
    (target_spec_idx : Z) : Py spec_float :=
  let site := c_double float_zero in
  let '(status, site) :=
    Sindex_SIToSI sindex_dll (c_short spec_idx) (c_double site_index)
      (c_short target_spec_idx) site in
  let result := c_int status in
  if result <? 0 then
    let msg := get_sindex_err_msg result in
    exec emit (Error "Sindex_SIToSI"
                 [AInt spec_idx; AFloat site_index; AInt target_spec_idx] msg);
    ret float_neg_inf
  else
    exec emit (Debug "Sindex_SIToSI"
                 [AInt spec_idx; AFloat site_index; AInt target_spec_idx]
                 (AFloat site));
    ret site.

Definition calc_site_class_to_site_index (species_idx site_class fiz : Z)
    : Py spec_float :=
  let site := c_double float_zero in
  call sc <- c_char site_class;
  call fz <- c_char fiz;
  let '(status, site) :=
    Sindex_SCToSI sindex_dll (c_short species_idx) sc fz site in
  let result := c_int status in
  if result <? 0 then
    let msg := get_sindex_err_msg result in
    exec emit (Error "Sindex_SCToSI"
                 [AInt species_idx; AInt site_class; AInt fiz] msg);
    ret float_neg_inf
  else
    exec emit (Debug "Sindex_SCToSI"
                 [AInt species_idx; AInt site_class; AInt fiz] (AFloat site));
    ret site.

End Wrappers.

(** ** The engine behind the entry points

    [sindex64.dll] is fetched as a binary when the package is installed;
    the repository holds its callers only.  The part of its behaviour that
    the properties below rest on is written here after the specification:
    the registries, the error kinds, the years-to-breast-height and
    species-to-species conversions, and the capped iteration. *)

Module Engine.

(** Modelled from the spec: the closed set of error kinds of the native
    library (section 7). *)
Inductive ErrorKind : Type :=
| UnknownSpecies | UnknownCurve | UnknownSiteClass | UnknownFizZone
| UnknownAgeType | InvalidEstablishmentType | SiteIndexTooSmall
| NoDirectInverse | NoConvergence | NoAnswer | NoConversionDefined
| EndOfSequence.

(** Modelled from the spec: the result of an operation of the native
    library, "either a valid numeric/enumerated result or one tagged error
    kind". *)
Inductive Outcome (A : Type) : Type :=
| Value (a : A)
| Failure (k : ErrorKind).
Arguments Value {A} a.
Arguments Failure {A} k.

(** Modelled from the spec: the enumerations of the data model of the
    native library, with the integer codes the interface module gives
    them ([EAgeType], [EEstimate]). *)
Inductive AgeType : Type := TOTAL | BREAST_HEIGHT.
Inductive EstimateMethod : Type := ITERATE | DIRECT.

Definition age_type_code (t : AgeType) : Z :=
  match t with TOTAL => 0 | BREAST_HEIGHT => 1 end.
Definition estimate_code (m : EstimateMethod) : Z :=
  match m with ITERATE => 0 | DIRECT => 1 end.

(** Modelled from the spec: one round of the root-find of the native
    library's ITERATE mode ("bisection or Newton iteration"): it has
    converged to a site index, it goes on from a new state, or the forward
    model failed. *)
Inductive Step (S : Type) : Type :=
| Converged (si : spec_float)
| Continue (s : S)
| Abort (k : ErrorKind).
Arguments Converged {S} si.
Arguments Continue {S} s.
Arguments Abort {S} k.

(** Modelled from the spec: a Curve Model of the native library, one
    equation family with its coefficients filled in.  [cm_direct] is the
    closed-form inverse "if one exists"; [cm_y2bh] is [None] where "the
    model has no defined relationship for that site-index range";
    [cm_start] and [cm_step] are the family's iteration on
    (height, age, age type). *)
Record CurveModel : Type := {
  cm_height :
    spec_float -> AgeType -> spec_float -> spec_float -> Outcome spec_float;
  cm_direct :
    option (spec_float -> spec_float -> AgeType -> Outcome spec_float);
  cm_y2bh : spec_float -> option spec_float;
  cm_state : Type;
  cm_start : spec_float -> spec_float -> AgeType -> cm_state;
  cm_step : spec_float -> spec_float -> AgeType -> cm_state -> Step cm_state
}.

(** Modelled from the spec: a Species record of the native library's
    registry (section 3). *)
Record Species : Type := {
  sp_code : list Byte.byte;
  sp_name : list Byte.byte;
  sp_default_curve : Z;
  sp_default_gi_curve : Z;
  sp_default_natural : Z;
  sp_default_planted : Z;
  sp_curves : list Z
}.

(** Modelled from the spec: a Curve record of the native library's
    registry (section 3). *)
Record Curve : Type := {
  cu_species : Z;
  cu_name : list Byte.byte;
  cu_source : list Byte.byte;
  cu_notes : list Byte.byte;
  cu_model : CurveModel
}.

(** Modelled from the spec: the static tables the native library loads
    once: both registries in load order (an index is a position), the
    conversion table keyed by the ordered species pair, and the hard cap
    of the iteration. *)
Record Tables : Type := {
  species : list Species;
  curves : list Curve;
  conversions : list ((Z * Z) * (spec_float -> spec_float));
  iteration_cap : nat
}.

Definition at_index {A} (l : list A) (i : Z) : option A :=
  if i <? 0 then None else l !! Z.to_nat i.

(** 1.3, breast height, and 20.0 as binary64 values. *)
Definition breast_height : spec_float :=
  S754_finite false 5854679515581645 (-52).
Definition twenty : spec_float :=
  S754_finite false 5629499534213120 (-48).

(** Modelled from the spec: [firstSpecies() -> index | Empty] of the
    native library's Species Registry; [None] is Empty. *)
Definition firstSpecies (T : Tables) : option Z :=
  match species T with
  | [] => None
  | _ :: _ => Some 0
  end.

(** Modelled from the spec: [nextSpecies(index) -> index | EndOfSequence]
    of the native library's Species Registry, in load order; an index
    outside the table is UnknownSpecies. *)
Definition nextSpecies (T : Tables) (index : Z) : Outcome Z :=
  match at_index (species T) index with
  | None => Failure UnknownSpecies
  | Some _ =>
      match at_index (species T) (index + 1) with
      | None => Failure EndOfSequence
      | Some _ => Value (index + 1)
      end
  end.

(** Modelled from the spec: [yearsToBreastHeight(siteIndex)] of a Curve
    Model of the native library: SiteIndexTooSmall if siteIndex <= 1.3,
    NoAnswer where the model defines nothing. *)
Definition model_y2bh (m : CurveModel) (siteIndex : spec_float)
    : Outcome spec_float :=
  if SFleb siteIndex breast_height then Failure SiteIndexTooSmall
  else
    match cm_y2bh m siteIndex with
    | None => Failure NoAnswer
    | Some years => Value years
    end.

(** Modelled from the spec: [yearsToBreastHeight(curveIndex, siteIndex)]
    of the native library's Estimation Engine: "resolve curve, delegate";
    a registry failure comes "before any numeric work". *)
Definition yearsToBreastHeight (T : Tables) (curveIndex : Z)
    (siteIndex : spec_float) : Outcome spec_float :=
  match at_index (curves T) curveIndex with
  | None => Failure UnknownCurve
  | Some c => model_y2bh (cu_model c) siteIndex
  end.

Fixpoint lookup_pair {A} (key : Z * Z) (l : list ((Z * Z) * A)) : option A :=
  match l with
  | [] => None
  | (k, v) :: rest =>
      if (fst k =? fst key) && (snd k =? snd key) then Some v
      else lookup_pair key rest
  end.

Definition find_conversion (T : Tables) (src tgt : Z)
    : option (spec_float -> spec_float) :=
  lookup_pair (src, tgt) (conversions T).

(** Modelled from the spec: [convertSiteIndex] of the native library's
    Species-to-Species Site Converter: UnknownSpecies for invalid indices,
    identity when source = target, the table entry of the ordered pair,
    NoConversionDefined without one. *)
Definition convertSiteIndex (T : Tables) (sourceSpecies : Z)
    (siteIndex : spec_float) (targetSpecies : Z) : Outcome spec_float :=
  match at_index (species T) sourceSpecies,
        at_index (species T) targetSpecies with
  | Some _, Some _ =>
      if sourceSpecies =? targetSpecies then Value siteIndex
      else
        match find_conversion T sourceSpecies targetSpecies with
        | Some f => Value (f siteIndex)
        | None => Failure NoConversionDefined
        end
  | _, _ => Failure UnknownSpecies
  end.

(** Modelled from the spec: the bounded root-find of the native library's
    ITERATE mode: at most [cap] rounds, then NoConvergence.  The second
    component counts the rounds taken. *)
Fixpoint iterate {S : Type} (cap : nat) (step : S -> Step S) (s : S)
    : Outcome spec_float * nat :=
  match cap with
  | O => (Failure NoConvergence, O)
  | Datatypes.S cap' =>
      match step s with
      | Converged si => (Value si, 1%nat)
      | Abort k => (Failure k, 1%nat)
      | Continue s' =>
          let '(r, n) := iterate cap' step s' in (r, Datatypes.S n)
      end
  end.

(** Modelled from the spec: [siteIndexFromHeightAge] of a Curve Model of
    the native library, with the rounds it took: DIRECT uses the closed
    form or fails NoDirectInverse; ITERATE runs the capped iteration and
    fails SiteIndexTooSmall "if the implied site index would be <= 1.3". *)
Definition model_site_index (cap : nat) (m : CurveModel)
    (height age : spec_float) (ageType : AgeType)
    (estimateMethod : EstimateMethod) : Outcome spec_float * nat :=
  match estimateMethod with
  | DIRECT =>
      match cm_direct m with
      | None => (Failure NoDirectInverse, O)
      | Some inverse => (inverse height age ageType, O)
      end
  | ITERATE =>
      match iterate cap (cm_step m height age ageType)
              (cm_start m height age ageType) with
      | (Value si, n) =>
          if SFleb si breast_height then (Failure SiteIndexTooSmall, n)
          else (Value si, n)
      | (Failure k, n) => (Failure k, n)
      end
  end.

(** Modelled from the spec: [siteIndexFromHeightAge] of the native
    library's Estimation Engine: "resolve species, default curve,
    delegate", failing UnknownSpecies / UnknownCurve "before any numeric
    work". *)
Definition solve_site_index (T : Tables) (speciesIndex : Z)
    (height age : spec_float) (ageType : AgeType)
    (estimateMethod : EstimateMethod) : Outcome spec_float * nat :=
  match at_index (species T) speciesIndex with
  | None => (Failure UnknownSpecies, O)
  | Some sp =>
      match at_index (curves T) (sp_default_curve sp) with
      | None => (Failure UnknownCurve, O)
      | Some c =>
          model_site_index (iteration_cap T) (cu_model c)
            height age ageType estimateMethod
      end
  end.

Definition siteIndexFromHeightAge (T : Tables) (speciesIndex : Z)
    (height age : spec_float) (ageType : AgeType)
    (estimateMethod : EstimateMethod) : Outcome spec_float :=
  fst (solve_site_index T speciesIndex height age ageType estimateMethod).

Definition rounds (T : Tables) (speciesIndex : Z)
    (height age : spec_float) (ageType : AgeType)
    (estimateMethod : EstimateMethod) : nat :=
  snd (solve_site_index T speciesIndex height age ageType estimateMethod).

End Engine.

(** ** The engine seen through the entry points *)

Import Engine.

(** The status an entry point returns for an error kind: the code whose
    message in [error_messages] describes the kind.  End of sequence is
    the -4 that [get_next_species] and [get_next_curve] test for; the two
    kinds without a message of their own are "no answer was generated". *)
Definition status_of_kind (k : ErrorKind) : Z :=
  match k with
  | SiteIndexTooSmall => -1
  | NoAnswer | EndOfSequence | NoDirectInverse | NoConvergence => -4
  | UnknownCurve => -5
  | UnknownSiteClass => -6
  | UnknownFizZone => -7
  | UnknownSpecies => -8
  | NoConversionDefined => -10
  | UnknownAgeType => -11
  | InvalidEstablishmentType => -12
  end.

(** An index-returning entry point: the index, or the status. *)
Definition short_of_outcome (o : Outcome Z) : Z :=
  match o with
  | Value i => i
  | Failure k => status_of_kind k
  end.

(** An entry point with a [double *]: status 0 and the value stored, or
    the status with the cell left as it was. *)
Definition store_outcome (o : Outcome spec_float) (cell : spec_float)
    : Z * spec_float :=
  match o with
  | Value v => (0, v)
  | Failure k => (status_of_kind k, cell)
  end.

(** Indices cross the boundary as C shorts, so the tables hold no more
    entries than a short can number. *)
Definition short_indexed (T : Tables) : Prop :=
  Z.of_nat (length (species T)) <= 32768
  /\ Z.of_nat (length (curves T)) <= 32768.

(** [dll] answers the species enumeration from the tables [T]. *)
Definition serves_species (dll : SindexDLL) (T : Tables) : Prop :=
  Sindex_FirstSpecies dll
    = short_of_outcome
        (match firstSpecies T with
         | Some i => Value i
         | None => Failure NoAnswer
         end)
  /\ forall i, Sindex_NextSpecies dll i = short_of_outcome (nextSpecies T i).

(** [dll] answers [Sindex_SIToSI] from the tables [T]. *)
Definition serves_conversion (dll : SindexDLL) (T : Tables) : Prop :=
  forall src si tgt cell,
    Sindex_SIToSI dll src si tgt cell
      = store_outcome (convertSiteIndex T src si tgt) cell.

(** [dll] answers [Sindex_HtAgeToSI] from the tables [T]. *)
Definition serves_site_index (dll : SindexDLL) (T : Tables) : Prop :=
  forall sp age t height m cell,
    Sindex_HtAgeToSI dll sp age (age_type_code t) height (estimate_code m) cell
      = store_outcome (siteIndexFromHeightAge T sp height age t m) cell.

(** ** A caller's walk over the species

    [first = get_first_species()], then [get_next_species] until it
    answers -1.  [fuel] bounds the number of calls; [None] means the walk
    was cut short by it. *)

Fixpoint species_from (dll : SindexDLL) (fuel : nat) (idx : Z)
    : Py (option (list Z)) :=
  if idx =? -1 then ret (Some [])
  else
    match fuel with
    | O => ret None
    | S fuel' =>
        call next <- get_next_species dll idx;
        call rest <- species_from dll fuel' next;
        ret (cons idx <$> rest)
    end.

Definition all_species (dll : SindexDLL) (fuel : nat) : Py (option (list Z)) :=
  call first <- get_first_species dll;
  species_from dll fuel first.

(** The state of an iteration at the start of round [n + 1]: [None] when
    it stopped earlier. *)
Fixpoint state_after {S : Type} (n : nat) (step : S -> Step S) (s : S)
    : option S :=
  match n with
  | O => Some s
  | Datatypes.S n' =>
      match step s with
      | Continue s' => state_after n' step s'
      | _ => None
      end
  end.

(** A record on [sindex_error] carrying the message of [code]: the one
    way a wrapper tells its caller which failure occurred. *)
Definition signals {A} (code : Z) (c : Py A) : Prop :=
  exists fn args, In (Error fn args (get_sindex_err_msg code)) (logged c).

(** ** A small library to run the wrappers on

    Two species and three curves of one toy family (height proportional
    to site index and to age, reference age 50), bisection on the site
    index over [0, 100] with height tolerance 1e-4, and the cap of 100
    rounds. *)

Module Demo.

Definition double_of_Z (z : Z) : spec_float := binary_normalize 53 1024 z 0 false.
Definition dadd := SFadd 53 1024.
Definition dsub := SFsub 53 1024.
Definition dmul := SFmul 53 1024.
Definition ddiv := SFdiv 53 1024.

Definition one : spec_float := double_of_Z 1.
Definition fifty : spec_float := double_of_Z 50.
Definition tolerance : spec_float := ddiv one (double_of_Z 10000).

Definition toy_height (age si : spec_float) : spec_float :=
  ddiv (dmul si age) fifty.

Definition bisect (height age : spec_float) (_ : AgeType)
    (bracket : spec_float * spec_float) : Step (spec_float * spec_float) :=
  let '(lo, hi) := bracket in
  let mid := ddiv (dadd lo hi) (double_of_Z 2) in
  let h := toy_height age mid in
  if SFltb (SFabs (dsub h height)) tolerance then Converged mid
  else if SFltb h height then Continue (mid, hi)
  else Continue (lo, mid).

Definition toy_model (direct : bool) : CurveModel := {|
  cm_height := fun age _ si _ => Value (toy_height age si);
  cm_direct :=
    if direct then Some (fun height age _ => Value (ddiv (dmul height fifty) age))
    else None;
  cm_y2bh := fun si =>
    if SFltb (double_of_Z 60) si then None
    else Some (ddiv (double_of_Z 100) si);
  cm_state := spec_float * spec_float;
  cm_start := fun _ _ _ => (double_of_Z 0, double_of_Z 100);
  cm_step := bisect
|}.

Definition bytes (s : string) : list Byte.byte := String.list_byte_of_string s.

Definition tables : Tables := {|
  species :=
    [ {| sp_code := bytes "Fd  "; sp_name := bytes "Douglas-fir";
         sp_default_curve := 0; sp_default_gi_curve := 1;
         sp_default_natural := 0; sp_default_planted := 1;
         sp_curves := [0; 1] |};
      {| sp_code := bytes "Pl  "; sp_name := bytes "Lodgepole pine";
         sp_default_curve := 2; sp_default_gi_curve := 2;
         sp_default_natural := 2; sp_default_planted := 2;
         sp_curves := [2] |} ];
  curves :=
    [ {| cu_species := 0; cu_name := bytes "Toy (direct)";
         cu_source := bytes "none"; cu_notes := bytes " ";
         cu_model := toy_model true |};
      {| cu_species := 0; cu_name := bytes "Toy (planted)";
         cu_source := bytes "none"; cu_notes := bytes " ";
         cu_model := toy_model true |};
      {| cu_species := 1; cu_name := bytes "Toy (iterate only)";
         cu_source := bytes "none"; cu_notes := bytes " ";
         cu_model := toy_model false |} ];
  conversions := [ ((0, 1), fun si => dsub si one) ];
  iteration_cap := 100
|}.

(** Site classes: one entry, (species 0, MEDIUM, COAST) -> 27.0. *)
Definition site_classes : list ((Z * Z) * Z * spec_float) :=
  [ ((0, 3), 0, double_of_Z 27) ].

Fixpoint class_entry (sp sc fz : Z) (l : list ((Z * Z) * Z * spec_float))
    : option spec_float :=
  match l with
  | [] => None
  | ((s, c), z, v) :: rest =>
      if (s =? sp) && (c =? sc) && (z =? fz) then Some v
      else class_entry sp sc fz rest
  end.

Fixpoint next_in (cu : Z) (l : list Z) : Z :=
  match l with
  | [] => -5
  | c :: rest =>
      if c =? cu then match rest with [] => -4 | n :: _ => n end
      else next_in cu rest
  end.

Definition of_species (i : Z) (f : Species -> Z) : Z :=
  match at_index (species tables) i with
  | Some s => f s
  | None => -8
  end.

Definition age_type_of (code : Z) : option AgeType :=
  if code =? 0 then Some TOTAL
  else if code =? 1 then Some BREAST_HEIGHT else None.

Definition estimate_of (code : Z) : option EstimateMethod :=
  if code =? 0 then Some ITERATE
  else if code =? 1 then Some DIRECT else None.

Definition dll : SindexDLL := {|
  Sindex_FirstSpecies :=
    match firstSpecies tables with Some i => i | None => -4 end;
  Sindex_NextSpecies := fun i => short_of_outcome (nextSpecies tables i);
  Sindex_SpecCode := fun i => sp_code <$> at_index (species tables) i;
  Sindex_SpecName := fun i => sp_name <$> at_index (species tables) i;
  Sindex_DefCurve := fun i => of_species i sp_default_curve;
  Sindex_DefCurveEst := fun i regen =>
    of_species i (fun s =>
      if regen =? 0 then sp_default_natural s
      else if regen =? 1 then sp_default_planted s else -12);
  Sindex_DefGICurve := fun i => of_species i sp_default_gi_curve;
  Sindex_FirstCurve := fun i =>
    of_species i (fun s => match sp_curves s with [] => -4 | c :: _ => c end);
  Sindex_NextCurve := fun i cu => of_species i (fun s => next_in cu (sp_curves s));
  Sindex_CurveName := fun cu => cu_name <$> at_index (curves tables) cu;
  Sindex_CurveSource := fun cu => cu_source <$> at_index (curves tables) cu;
  Sindex_CurveNotes := fun cu => cu_notes <$> at_index (curves tables) cu;
  Sindex_HtAgeToSI := fun sp age bh height est cell =>
    match age_type_of bh, estimate_of est with
    | Some t, Some m =>
        store_outcome (siteIndexFromHeightAge tables sp height age t m) cell
    | _, _ => (-11, cell)
    end;
  Sindex_HtSIToAge := fun cu height bh si y2bh cell => (-4, cell);
  Sindex_AgeSIToHt := fun cu age bh si y2bh cell =>
    match at_index (curves tables) cu, age_type_of bh with
    | None, _ => (-5, cell)
    | Some c, None => (-11, cell)
    | Some c, Some t => store_outcome (cm_height (cu_model c) age t si y2bh) cell
    end;
  Sindex_Y2BH := fun cu si cell =>
    store_outcome (yearsToBreastHeight tables cu si) cell;
  Sindex_SIToSI := fun src si tgt cell =>
    store_outcome (convertSiteIndex tables src si tgt) cell;
  Sindex_SCToSI := fun sp sc fz cell =>
    match at_index (species tables) sp with
    | None => (-8, cell)
    | Some _ =>
        if negb ((0 <=? sc) && (sc <=? 4)) then (-6, cell)
        else if negb ((0 <=? fz) && (fz <=? 1)) then (-7, cell)
        else
          match class_entry sp sc fz site_classes with
          | Some v => (0, v)
          | None => (-4, cell)
          end
    end
|}.

End Demo.

(** ** What the properties speak of *)

(** The result of an index lookup whose entry point left [raw] in the
    return register: that index when it is not negative, -1 otherwise. *)
Definition index_or_sentinel (raw : Z) (c : Py Z) : Prop :=
  (0 <= c_short raw /\ outcome c = Return (c_short raw))
  \/ (c_short raw < 0 /\ outcome c = Return (-1)).

(** The caller can tell the end of an enumeration from an error by the
    value returned: a call that met status -4 and a call that met another
    negative status never return the same. *)
Definition end_told_apart (dll : SindexDLL) : Prop :=
  (forall i j,
      c_short (Sindex_NextSpecies dll (c_short i)) = -4 ->
      c_short (Sindex_NextSpecies dll (c_short j)) < 0 ->
      c_short (Sindex_NextSpecies dll (c_short j)) <> -4 ->
      outcome (get_next_species dll i) <> outcome (get_next_species dll j))
  /\ (forall sp cu sp' cu',
      c_short (Sindex_NextCurve dll (c_short sp) (c_short cu)) = -4 ->
      c_short (Sindex_NextCurve dll (c_short sp') (c_short cu')) < 0 ->
      c_short (Sindex_NextCurve dll (c_short sp') (c_short cu')) <> -4 ->
      outcome (get_next_curve dll sp cu) <> outcome (get_next_curve dll sp' cu')).

(** The status the library gives [calc_site] and
    [calc_site_class_to_site_index]. *)
Definition site_status (dll : SindexDLL) (species_idx : Z)
    (height age : spec_float) (use_bh estimate_type : Z) : Z :=
  c_int (fst (Sindex_HtAgeToSI dll (c_short species_idx) (c_double age)
                (c_short use_bh) (c_double height) (c_short estimate_type)
                (c_double float_zero))).

Definition class_status (dll : SindexDLL) (species_idx site_class fiz : Z) : Z :=
  c_int (fst (Sindex_SCToSI dll (c_short species_idx) site_class fiz
                (c_double float_zero))).

(** The value returned by a failing call tells which failure it was: two
    failing calls that met different statuses return different values. *)
Definition failures_told_apart (dll : SindexDLL) : Prop :=
  forall species_idx height age use_bh estimate_type species_idx' site_class fiz,
    0 <= site_class < 256 -> 0 <= fiz < 256 ->
    site_status dll species_idx height age use_bh estimate_type < 0 ->
    class_status dll species_idx' site_class fiz < 0 ->
    site_status dll species_idx height age use_bh estimate_type
      <> class_status dll species_idx' site_class fiz ->
    outcome (calc_site dll species_idx height age use_bh estimate_type)
      <> outcome (calc_site_class_to_site_index dll species_idx' site_class fiz).

(** What a string accessor does with the pointer [p] it got back. *)
Definition string_result (fn : string) (idx : Z) (p : option (list Byte.byte))
    : Py PyStr :=
  match c_char_p p with
  | None => (Raise AttributeError, [])
  | Some bs =>
      match utf8_decode bs with
      | None => (Raise UnicodeDecodeError, [])
      | Some s => (Return (strip s), [Debug fn [AInt idx] (AStr (strip s))])
      end
  end.

(** What a [calc_*] wrapper returns for the status and cell content [r]
    that its entry point produced. *)
Definition sentinel_or_value (r : Z * spec_float) : spec_float :=
  if c_int (fst r) <? 0 then float_neg_inf else snd r.

(** The logger that hears of a [get_next_*] call that met [status]. *)
Definition next_logger (status : Z) : Logger :=
  if status =? -4 then sindex_log
  else if status <? 0 then sindex_error else sindex_log.

(** ** The rest of the module: enumerations and the version number *)

Module EnumCstIntFIZ.
Definition COAST : Z := 0.
Definition INTERIOR : Z := 1.
Definition values : list Z := [COAST; INTERIOR].
End EnumCstIntFIZ.

Module EnumSiteClass.
Definition NONE : Z := 0.
Definition LOW : Z := 1.
Definition POOR : Z := 2.
Definition MEDIUM : Z := 3.
Definition GOOD : Z := 4.
Definition values : list Z := [NONE; LOW; POOR; MEDIUM; GOOD].
End EnumSiteClass.

Module EAgeType.
Definition TOTAL : Z := 0.
Definition BREAST : Z := 1.
End EAgeType.

Module ERegen.
Definition NATURAL : Z := 0.
Definition PLANTED : Z := 1.
End ERegen.

Module EEstimate.
Definition ITERATE : Z := 0.
Definition DIRECT : Z := 1.
End EEstimate.

(** Python's arithmetic on [float], as far as [get_version_number] uses
    it: [float(n)], true division, and [round(x, ndigits)] for
    [ndigits >= 0]. *)
Module PyNum.

Definition float_of_int (n : Z) : spec_float := binary_normalize 53 1024 n 0 false.

Definition truediv (x y : spec_float) : spec_float := SFdiv 53 1024 x y.

(** The integer nearest to [num / den], ties to the even one
    ([num >= 0], [den > 0]). *)
Definition round_half_even (num den : Z) : Z :=
  let '(d, r) := Z.div_eucl num den in
  match 2 * r ?= den with
  | Lt => d
  | Gt => d + 1
  | Eq => if Z.even d then d else d + 1
  end.

(** [round(x, ndigits)]: the exact value of [x] is rounded, ties to even,
    to [ndigits] decimals, and the decimal is converted back to the
    nearest [float]; zeros, infinities and NaN round to themselves, a
    result of no digits keeps the sign of [x], and beyond 323 digits [x]
    is returned as it is. *)
Definition py_round (x : spec_float) (ndigits : nat) : spec_float :=
  match x with
  | S754_finite s m e =>
      if (323 <? Z.of_nat ndigits) then x
      else
        let scale := 10 ^ Z.of_nat ndigits in
        let q :=
          if 0 <=? e then Zpos m * scale * 2 ^ e
          else round_half_even (Zpos m * scale) (2 ^ (- e)) in
        match q with
        | Zpos p =>
            SFdiv 53 1024 (S754_finite s p 0)
              (S754_finite false (Z.to_pos scale) 0)
        | _ => S754_zero s
        end
  | _ => x
  end.

End PyNum.

(** The library with the one entry point that [SindexDLL] leaves out. *)
Record SindexLibrary : Type := {
  entry_points :> SindexDLL;
  Sindex_VersionNumber : Z
}.

Definition get_version_number (lib : SindexLibrary) : Py spec_float :=
  let result := c_short (Sindex_VersionNumber lib) in
  let version :=
    PyNum.py_round
      (PyNum.truediv (PyNum.float_of_int result) (PyNum.float_of_int 100)) 2 in
  exec emit (Debug "Sindex_VersionNumber" [] (AFloat version));
  ret version.

(** The demo entry points as a library of version 1.54. *)
Definition demo_library : SindexLibrary :=
  {| entry_points := Demo.dll; Sindex_VersionNumber := 154 |}.

(** A call that returns leaves exactly one record; one that raises, none. *)
Definition one_record_if_returned {A} (c : Py A) : Prop :=
  length (logged c) = match outcome c with Return _ => 1%nat | Raise _ => 0%nat end.

(** What an index lookup does with the integer [raw] that its entry point
    left in the return register, and what [get_next_species] and
    [get_next_curve] do with it. *)
Definition lookup_result (fn : string) (args : list PyArg) (raw : Z) : Py Z :=
  if c_short raw <? 0 then
    (Return (-1), [Error fn args (get_sindex_err_msg (c_short raw))])
  else (Return (c_short raw), [Debug fn args (AInt (c_short raw))]).

Definition next_result (text fn : string) (args : list PyArg) (raw : Z) : Py Z :=
  if c_short raw =? -4 then (Return (-1), [DebugText text])
  else lookup_result fn args raw.

(** What a [calc_*] wrapper does with the status and the cell content [r]
    that its entry point produced. *)
Definition calc_result (fn : string) (args : list PyArg) (r : Z * spec_float)
    : Py spec_float :=
  if c_int (fst r) <? 0 then
    (Return float_neg_inf, [Error fn args (get_sindex_err_msg (c_int (fst r)))])
  else (Return (snd r), [Debug fn args (AFloat (snd r))]).

(** A string without white space at either end. *)
Definition trimmed (s : PyStr) : Prop :=
  (forall c w, s = c :: w -> isspace c = false)
  /\ (forall c w, s = (w ++ [c])%list -> isspace c = false).

Definition returns_trimmed (c : Py PyStr) : Prop :=
  match outcome c with
  | Return s => trimmed s
  | Raise _ => True
  end.

(** The memory at a [char *] holds the C string [text]: the bytes of
    [text], none of them NUL, up to a NUL or to the end. *)
Definition c_string (text : list Byte.byte) (p : option (list Byte.byte)) : Prop :=
  Forall (fun b => Byte.to_N b <> 0%N) text
  /\ (p = Some text \/ exists rest, p = Some (text ++ Byte.x00 :: rest)%list).

(** The value [get_version_number] computes from the entry point's
    integer. *)
Definition version_of (raw : Z) : spec_float :=
  PyNum.py_round
    (PyNum.truediv (PyNum.float_of_int (c_short raw)) (PyNum.float_of_int 100)) 2.

(** The status and cell content that each [calc_*] wrapper gets back. *)
Definition site_answer (dll : SindexDLL) (species_idx : Z)
    (height age : spec_float) (use_bh estimate_type : Z) : Z * spec_float :=
  Sindex_HtAgeToSI dll (c_short species_idx) age (c_short use_bh) height
    (c_short estimate_type) float_zero.

Definition age_answer (dll : SindexDLL) (curve_idx : Z)
    (site_index height yrs_to_breast_height : spec_float) (use_bh : Z)
    : Z * spec_float :=
  Sindex_HtSIToAge dll (c_short curve_idx) height (c_short use_bh) site_index
    yrs_to_breast_height float_zero.

Definition height_answer (dll : SindexDLL) (curve_idx : Z)
    (site_index age yrs_to_breast_height : spec_float) (use_bh : Z)
    : Z * spec_float :=
  Sindex_AgeSIToHt dll (c_short curve_idx) age (c_short use_bh) site_index
    yrs_to_breast_height float_zero.

Definition y2bh_answer (dll : SindexDLL) (curve_idx : Z)
    (site_index : spec_float) : Z * spec_float :=
  Sindex_Y2BH dll (c_short curve_idx) site_index float_zero.

Definition convert_answer (dll : SindexDLL) (spec_idx : Z)
    (site_index : spec_float) (target_spec_idx : Z) : Z * spec_float :=
  Sindex_SIToSI dll (c_short spec_idx) site_index (c_short target_spec_idx)
    float_zero.

Definition class_answer (dll : SindexDLL) (species_idx site_class fiz : Z)
    : Z * spec_float :=
  Sindex_SCToSI dll (c_short species_idx) site_class fiz float_zero.

(** The answer [r] makes a [calc_*] wrapper return negative infinity. *)
Definition yields_sentinel (r : Z * spec_float) : Prop :=
  c_int (fst r) < 0 \/ snd r = float_neg_inf.

(** Two floats are the same datum. *)
Definition float_same (x y : spec_float) : bool :=
  match x, y with
  | S754_zero s, S754_zero s' => Bool.eqb s s'
  | S754_infinity s, S754_infinity s' => Bool.eqb s s'
  | S754_nan, S754_nan => true
  | S754_finite s m e, S754_finite s' m' e' =>
      Bool.eqb s s' && Pos.eqb m m' && Z.eqb e e'
  | _, _ => false
  end.

(** The quotient [result / 100.0] for the short [k], and the check that
    rounding it to two decimals gives it back. *)
Definition hundredths (k : Z) : spec_float :=
  PyNum.truediv (PyNum.float_of_int k) (PyNum.float_of_int 100).

Definition round_keeps (k : Z) : bool :=
  float_same (PyNum.py_round (hundredths k) 2) (hundredths k).


(** ** The foreign-function objects

    [sindex_dll.Sindex_NextSpecies] is one object for as long as the
    module is loaded: the library handle caches it under its name.  A
    wrapper assigns its [argtypes] and [restype] and then calls it, so the
    prototypes are a store that every call reads and writes.  A function
    object starts without [argtypes] and with the [restype] [c_int]; the
    wrappers pass [c_short] objects, which any [argtypes] they set takes
    as they are, and the integer in the return register is read as the
    [restype] in force at the call. *)

Inductive CType : Type := c_int_type | c_short_type.

Record Prototype : Type := {
  argtypes : option (list CType);
  restype : CType
}.

Definition fresh_prototype : Prototype :=
  {| argtypes := None; restype := c_int_type |}.

Definition prototype_of (store : gmap string Prototype) (fn : string)
    : Prototype :=
  default fresh_prototype (store !! fn).

Definition set_argtypes (fn : string) (types : list CType)
    (store : gmap string Prototype) : gmap string Prototype :=
  <[fn := {| argtypes := Some types;
             restype := restype (prototype_of store fn) |}]> store.

Definition set_restype (fn : string) (type : CType)
    (store : gmap string Prototype) : gmap string Prototype :=
  <[fn := {| argtypes := argtypes (prototype_of store fn);
             restype := type |}]> store.

Definition read_as (type : CType) (raw : Z) : Z :=
  match type with
  | c_int_type => c_int raw
  | c_short_type => c_short raw
  end.

(** [get_first_species] and [get_next_species] with the store of
    prototypes they find and leave. *)
Definition get_first_species_in (dll : SindexDLL)
    (store : gmap string Prototype) : Py Z * gmap string Prototype :=
  let store := set_restype "Sindex_FirstSpecies" c_short_type store in
  let result :=
    read_as (restype (prototype_of store "Sindex_FirstSpecies"))
      (Sindex_FirstSpecies dll) in
  (if result <? 0 then
     let msg := get_sindex_err_msg result in
     exec emit (Error "Sindex_FirstSpecies" [] msg);
     ret (-1)
   else
     exec emit (Debug "Sindex_FirstSpecies" [] (AInt result));
     ret result,
   store).

Definition get_next_species_in (dll : SindexDLL) (idx : Z)
    (store : gmap string Prototype) : Py Z * gmap string Prototype :=
  let store := set_argtypes "Sindex_NextSpecies" [c_short_type] store in
  let store := set_restype "Sindex_NextSpecies" c_short_type store in
  let result :=
    read_as (restype (prototype_of store "Sindex_NextSpecies"))
      (Sindex_NextSpecies dll (c_short idx)) in
  (if result =? -4 then
     exec emit (DebugText "Sindex_NextSpecies() -> Last defined species index");
     ret (-1)
   else if result <? 0 then
     let msg := get_sindex_err_msg result in
     exec emit (Error "Sindex_NextSpecies" [AInt idx] msg);
     ret (-1)
   else
     exec emit (Debug "Sindex_NextSpecies" [AInt idx] (AInt result));
     ret result,
   store).

(** The caller's walk, threading the store. *)
Fixpoint species_from_in (dll : SindexDLL) (fuel : nat) (idx : Z)
    (store : gmap string Prototype)
    : Py (option (list Z)) * gmap string Prototype :=
  if idx =? -1 then (ret (Some []), store)
  else
    match fuel with
    | O => (ret None, store)
    | S fuel' =>
        let '(called, store1) := get_next_species_in dll idx store in
        match called with
        | (Return next, log) =>
            let '(walked, store2) := species_from_in dll fuel' next store1 in
            (call _ <- (Return next, log);
             call rest <- walked;
             ret (cons idx <$> rest),
             store2)
        | (Raise e, log) => ((Raise e, log), store1)
        end
    end.

Definition all_species_in (dll : SindexDLL) (fuel : nat)
    (store : gmap string Prototype)
    : Py (option (list Z)) * gmap string Prototype :=
  let '(called, store1) := get_first_species_in dll store in
  match called with
  | (Return first, log) =>
      let '(walked, store2) := species_from_in dll fuel first store1 in
      (call _ <- (Return first, log); walked, store2)
  | (Raise e, log) => ((Raise e, log), store1)
  end.

(** Two walks one after the other: the second finds the store that the
    first has left. *)
Definition two_walks (dll : SindexDLL) (fuel : nat)
    (store : gmap string Prototype)
    : Py (option (list Z)) * Py (option (list Z)) :=
  let '(first_walk, store1) := all_species_in dll fuel store in
  let '(second_walk, _) := all_species_in dll fuel store1 in
  (first_walk, second_walk).

(** ** The root-find as a loop

    The iteration of the engine, round by round, with nothing but the
    loop's own test to stop it. *)

Module RootFind.

(** Modelled from the spec: a configuration of the native library's
    root-find in ITERATE mode: still running, in some state after some
    rounds, or halted with an outcome. *)
Inductive Config (S : Type) : Type :=
| Running (s : S) (rounds : nat)
| Halted (o : Outcome spec_float) (rounds : nat).
Arguments Running {S} s rounds.
Arguments Halted {S} o rounds.

(** Modelled from the spec: one turn of the native library's loop, with
    "a hard iteration cap": "on exceeding the cap it fails with
    NoConvergence rather than looping indefinitely". *)
Definition turn {S : Type} (cap : nat) (step : S -> Step S) (c : Config S)
    : Config S :=
  match c with
  | Halted o n => Halted o n
  | Running s n =>
      if (cap <=? n)%nat then Halted (Failure NoConvergence) n
      else
        match step s with
        | Converged si => Halted (Value si) (Datatypes.S n)
        | Abort k => Halted (Failure k) (Datatypes.S n)
        | Continue s' => Running s' (Datatypes.S n)
        end
  end.

(** The same loop without the test of the cap. *)
Definition turn_uncapped {S : Type} (step : S -> Step S) (c : Config S)
    : Config S :=
  match c with
  | Halted o n => Halted o n
  | Running s n =>
      match step s with
      | Converged si => Halted (Value si) (Datatypes.S n)
      | Abort k => Halted (Failure k) (Datatypes.S n)
      | Continue s' => Running s' (Datatypes.S n)
      end
  end.

(** [turns] turns of a loop. *)
Fixpoint run {S : Type} (turns : nat) (one : Config S -> Config S)
    (c : Config S) : Config S :=
  match turns with
  | O => c
  | Datatypes.S turns' => run turns' one (one c)
  end.

Definition halted {S : Type} (c : Config S) : bool :=
  match c with
  | Halted _ _ => true
  | Running _ _ => false
  end.

End RootFind.

(** Modelled from the spec: [Sindex_HtAgeToSI] of the native library in
    ITERATE mode as a call that takes time: what it has returned after
    [turns] turns of the loop, [None] while the loop is still running.
    The registries are resolved "before any numeric work". *)
Definition site_index_call (T : Tables) (turns : nat) (sp : Z)
    (height age : spec_float) (t : AgeType) (cell : spec_float)
    : option (Z * spec_float) :=
  match at_index (species T) sp with
  | None => Some (store_outcome (Failure UnknownSpecies) cell)
  | Some s =>
      match at_index (curves T) (sp_default_curve s) with
      | None => Some (store_outcome (Failure UnknownCurve) cell)
      | Some c =>
          match RootFind.run turns
                  (RootFind.turn (iteration_cap T)
                     (cm_step (cu_model c) height age t))
                  (RootFind.Running (cm_start (cu_model c) height age t) 0)
          with
          | RootFind.Running _ _ => None
          | RootFind.Halted (Value si) _ =>
              if SFleb si breast_height
              then Some (store_outcome (Failure SiteIndexTooSmall) cell)
              else Some (store_outcome (Value si) cell)
          | RootFind.Halted (Failure k) _ =>
              Some (store_outcome (Failure k) cell)
          end
      end
  end.

(** [calc_site] in ITERATE mode on that call: it blocks in the foreign
    call, so it has returned nothing while the call is running. *)
Definition calc_site_within (T : Tables) (turns : nat) (species_idx : Z)
    (height age : spec_float) (t : AgeType) : option (Py spec_float) :=
  calc_result "Sindex_HtAgeToSI"
    [AInt species_idx; AFloat age; AInt (age_type_code t); AFloat height;
     AInt (estimate_code ITERATE)]
  <$> site_index_call T turns (c_short species_idx) height age t float_zero.

(** * Properties *)

(** ** Marshalling *)

Lemma wrap_signed_16 (z : Z) :
  wrap_signed 16 z
    = if z mod 65536 <? 32768 then z mod 65536 else z mod 65536 - 65536.
Proof. reflexivity. Qed.

Lemma c_short_range (z : Z) : -32768 <= c_short z <= 32767.
Proof.
  unfold c_short. rewrite wrap_signed_16.
  pose proof (Z.mod_pos_bound z 65536 ltac:(lia)).
  destruct (Z.ltb_spec (z mod 65536) 32768); lia.
Qed.

Lemma c_short_id (z : Z) : -32768 <= z <= 32767 -> c_short z = z.
Proof.
  intros Hz. unfold c_short. rewrite wrap_signed_16.
  pose proof (Z.mod_pos_bound z 65536 ltac:(lia)).
  pose proof (Z.div_mod z 65536 ltac:(lia)).
  destruct (Z.ltb_spec (z mod 65536) 32768); lia.
Qed.

Lemma c_int_id (z : Z) : -2147483648 <= z <= 2147483647 -> c_int z = z.
Proof.
  intros Hz. unfold c_int, wrap_signed.
  change (2 ^ 32) with 4294967296. change (2 ^ (32 - 1)) with 2147483648.
  pose proof (Z.mod_pos_bound z 4294967296 ltac:(lia)).
  pose proof (Z.div_mod z 4294967296 ltac:(lia)).
  destruct (Z.ltb_spec (z mod 4294967296) 2147483648); lia.
Qed.

Lemma status_of_kind_range (k : ErrorKind) : -12 <= status_of_kind k <= -1.
Proof. destruct k; simpl; lia. Qed.

(** ** The message table *)

Lemma error_messages_outside (code : Z) :
  ~ (-12 <= code <= -1) -> error_messages !! code = None.
Proof.
  intros Hout. unfold error_messages.
  apply not_elem_of_list_to_map. cbn [fmap list_fmap fst].
  rewrite !not_elem_of_cons. repeat split; try lia.
  apply not_elem_of_nil.
Qed.

Lemma documented_message_outside (code : Z) :
  ~ (-12 <= code <= -1) -> documented_message code = "unknown issue".
Proof.
  intros Hout. destruct code as [|p|p]; try reflexivity.
  do 4 (try destruct p as [p|p|]; try reflexivity); lia.
Qed.

(** C9: [get_sindex_err_msg] is defined on every integer; on each of
    -1, ..., -12 it is that code's message in the table, and on every
    other integer it is "unknown issue". *)
Theorem get_sindex_err_msg_table (error_code : Z) :
  get_sindex_err_msg error_code = documented_message error_code.
Proof.
  destruct (decide (-12 <= error_code <= -1)) as [Hin|Hout].
  - assert (Hc : error_code = -1 \/ error_code = -2 \/ error_code = -3
                 \/ error_code = -4 \/ error_code = -5 \/ error_code = -6
                 \/ error_code = -7 \/ error_code = -8 \/ error_code = -9
                 \/ error_code = -10 \/ error_code = -11 \/ error_code = -12)
      by lia.
    repeat (destruct Hc as [-> | Hc]; [vm_compute; reflexivity |]).
    subst. vm_compute. reflexivity.
  - unfold get_sindex_err_msg.
    rewrite error_messages_outside, documented_message_outside by assumption.
    reflexivity.
Qed.

(** ** Index lookups *)

Ltac by_status :=
  repeat match goal with
         | |- context [?a =? ?b] => destruct (Z.eqb_spec a b)
         | |- context [?a <? ?b] => destruct (Z.ltb_spec a b)
         end.

Lemma index_or_sentinel_plain (raw : Z) (e : LogRecord) (d : LogRecord) :
  index_or_sentinel raw
    (let result := c_short raw in
     if result <? 0 then exec emit e; ret (-1)
     else exec emit d; ret result).
Proof.
  unfold index_or_sentinel. cbv zeta. by_status; [right | left]; split;
    first [lia | reflexivity].
Qed.

Lemma index_or_sentinel_next (raw : Z) (l e d : LogRecord) :
  index_or_sentinel raw
    (let result := c_short raw in
     if result =? -4 then exec emit l; ret (-1)
     else if result <? 0 then exec emit e; ret (-1)
     else exec emit d; ret result).
Proof.
  unfold index_or_sentinel. cbv zeta. by_status;
    first [right; split; [lia | reflexivity] | left; split; [lia | reflexivity]].
Qed.

(** C10: each index-returning lookup returns the index the library
    produced, when that is not negative, and -1 otherwise; no other
    negative value is returned. *)
Theorem index_lookups_return_index_or_sentinel
    (dll : SindexDLL) (idx species_idx regen_type curve_idx : Z) :
  index_or_sentinel (Sindex_FirstSpecies dll) (get_first_species dll)
  /\ index_or_sentinel (Sindex_NextSpecies dll (c_short idx))
       (get_next_species dll idx)
  /\ index_or_sentinel (Sindex_DefCurve dll (c_short species_idx))
       (get_def_curve dll species_idx)
  /\ index_or_sentinel
       (Sindex_DefCurveEst dll (c_short species_idx) (c_short regen_type))
       (get_def_curve_est dll species_idx regen_type)
  /\ index_or_sentinel (Sindex_DefGICurve dll (c_short species_idx))
       (get_def_gi_curve dll species_idx)
  /\ index_or_sentinel (Sindex_FirstCurve dll (c_short species_idx))
       (get_first_curve dll species_idx)
  /\ index_or_sentinel
       (Sindex_NextCurve dll (c_short species_idx) (c_short curve_idx))
       (get_next_curve dll species_idx curve_idx).
Proof.
  repeat split;
    first [apply index_or_sentinel_plain | apply index_or_sentinel_next].
Qed.

Lemma index_lookup_at_least_minus_one (raw : Z) (c : Py Z) :
  index_or_sentinel raw c -> exists r, outcome c = Return r /\ -1 <= r <= 32767.
Proof.
  pose proof (c_short_range raw).
  intros [[Hr ->] | [Hr ->]]; eexists; split; try reflexivity; lia.
Qed.

(** ** End of sequence and errors *)

(** C2, as stated, fails: on the demo library [get_next_species 1] meets
    status -4 (last species) and [get_next_species 7] meets status -8
    (unknown species); both return -1. *)
Lemma end_of_sequence_collapsed : ~ end_told_apart Demo.dll.
Proof.
  intros [Hspecies _].
  apply (Hspecies 1 7); vm_compute; congruence.
Qed.

(** C2, amended: [get_next_species] and [get_next_curve] return the index
    the library produced when it is not negative and -1 otherwise, at the
    end of the sequence as on an error; the two differ in the logger that
    receives the record, [sindex_log] for status -4 and [sindex_error]
    for any other negative status. *)
Theorem end_and_error_share_the_sentinel
    (dll : SindexDLL) (idx species_idx curve_idx : Z) :
  let s := c_short (Sindex_NextSpecies dll (c_short idx)) in
  let c := c_short (Sindex_NextCurve dll (c_short species_idx)
                      (c_short curve_idx)) in
  outcome (get_next_species dll idx) = Return (if s <? 0 then -1 else s)
  /\ map logger_of (logged (get_next_species dll idx)) = [next_logger s]
  /\ outcome (get_next_curve dll species_idx curve_idx)
     = Return (if c <? 0 then -1 else c)
  /\ map logger_of (logged (get_next_curve dll species_idx curve_idx))
     = [next_logger c].
Proof.
  cbv zeta. unfold get_next_species, get_next_curve, next_logger.
  repeat split; by_status; try reflexivity; lia.
Qed.

(** ** Failures of the numeric calls *)

Ltac by_cell :=
  match goal with
  | |- context [let '(_, _) := ?r in _] => destruct r as [? ?]
  end;
  unfold sentinel_or_value; cbn [fst snd]; cbv zeta; by_status; reflexivity.

(** C1, as stated, fails: on the demo library [calc_site] for the unknown
    species 99 (status -8) and [calc_site_class_to_site_index] for the
    unregistered triple (0, GOOD, INTERIOR) (status -4) return the same
    float, so the value returned does not tell the error kind. *)
Lemma failure_kinds_collapsed : ~ failures_told_apart Demo.dll.
Proof.
  intros H.
  apply (H 99 (Demo.double_of_Z 10) (Demo.double_of_Z 50) 0 0 0 4 1);
    vm_compute; repeat split; congruence.
Qed.

(** C1, amended: every [calc_*] wrapper returns a float: the value the
    library stored when its status is not negative, and the one sentinel
    negative infinity for every negative status, whichever it is;
    [calc_site_class_to_site_index] raises [TypeError] instead when the
    site class or the zone is not an integer in 0..255. *)
Theorem calc_returns_value_or_neg_inf
    (dll : SindexDLL)
    (species_idx curve_idx spec_idx target_spec_idx : Z)
    (use_bh estimate_type site_class fiz : Z)
    (height age site_index yrs_to_breast_height : spec_float) :
  outcome (calc_site dll species_idx height age use_bh estimate_type)
  = Return (sentinel_or_value
              (Sindex_HtAgeToSI dll (c_short species_idx) age (c_short use_bh)
                 height (c_short estimate_type) float_zero))
  /\ outcome (calc_age dll curve_idx site_index height yrs_to_breast_height
                use_bh)
     = Return (sentinel_or_value
                 (Sindex_HtSIToAge dll (c_short curve_idx) height
                    (c_short use_bh) site_index yrs_to_breast_height
                    float_zero))
  /\ outcome (calc_height dll curve_idx site_index age yrs_to_breast_height
                use_bh)
     = Return (sentinel_or_value
                 (Sindex_AgeSIToHt dll (c_short curve_idx) age
                    (c_short use_bh) site_index yrs_to_breast_height
                    float_zero))
  /\ outcome (calc_y2bh dll curve_idx site_index)
     = Return (sentinel_or_value
                 (Sindex_Y2BH dll (c_short curve_idx) site_index float_zero))
  /\ outcome (calc_convert_site dll spec_idx site_index target_spec_idx)
     = Return (sentinel_or_value
                 (Sindex_SIToSI dll (c_short spec_idx) site_index
                    (c_short target_spec_idx) float_zero))
  /\ outcome (calc_site_class_to_site_index dll species_idx site_class fiz)
     = if (0 <=? site_class) && (site_class <? 256)
          && ((0 <=? fiz) && (fiz <? 256))
       then Return (sentinel_or_value
                      (Sindex_SCToSI dll (c_short species_idx) site_class fiz
                         float_zero))
       else Raise TypeError.
Proof.
  unfold calc_site, calc_age, calc_height, calc_y2bh, calc_convert_site,
    calc_site_class_to_site_index, c_char, c_double.
  repeat apply conj; try by_cell.
  destruct ((0 <=? site_class) && (site_class <? 256)); [| reflexivity].
  destruct ((0 <=? fiz) && (fiz <? 256)); [| reflexivity].
  cbn [andb]. unfold bind at 1 2, ret at 1 2. cbn [app].
  destruct (Sindex_SCToSI dll (c_short species_idx) site_class fiz float_zero)
    as [status cell].
  unfold sentinel_or_value; cbn [fst snd]; by_status; reflexivity.
Qed.

(** ** String accessors *)

Lemma string_accessor (fn : string) (idx : Z) (p : option (list Byte.byte)) :
  (call result <- decode_strip (c_char_p p);
   exec emit (Debug fn [AInt idx] (AStr result));
   ret result)
  = string_result fn idx p.
Proof.
  unfold string_result, decode_strip.
  destruct (c_char_p p) as [bs|]; [| reflexivity].
  destruct (utf8_decode bs); reflexivity.
Qed.

Lemma string_result_never_signals (fn : string) (idx : Z)
    (p : option (list Byte.byte)) (code : Z) :
  ~ signals code (string_result fn idx p).
Proof.
  unfold signals, string_result. intros (f & args & Hin).
  destruct (c_char_p p) as [bs|]; [| exact Hin].
  destruct (utf8_decode bs); simpl in Hin; [| exact Hin].
  destruct Hin as [Heq | []]. discriminate Heq.
Qed.

(** C3, as stated, fails: index 99 is outside the demo library's species
    and curve tables, the library answers a null pointer, and
    [get_species_code 99] and [get_curve_name 99] raise [AttributeError]
    without a record of "species code is unknown" (-8) or of "input curve
    is not a valid curve index" (-5). *)
Lemma accessors_outside_the_tables :
  at_index (species Demo.tables) (c_short 99) = None
  /\ at_index (curves Demo.tables) (c_short 99) = None
  /\ outcome (get_species_code Demo.dll 99) = Raise AttributeError
  /\ ~ signals (-8) (get_species_code Demo.dll 99)
  /\ outcome (get_curve_name Demo.dll 99) = Raise AttributeError
  /\ ~ signals (-5) (get_curve_name Demo.dll 99).
Proof.
  repeat split; try reflexivity; intros (f & args & []).
Qed.

(** C3, amended: the string accessors check nothing: whatever the index,
    each returns the library's string decoded and stripped, raises
    [AttributeError] on a null pointer and [UnicodeDecodeError] on
    ill-formed bytes, and never reports an error kind. *)
Theorem string_accessors_pass_through
    (dll : SindexDLL) (species_idx curve_idx code : Z) :
  get_species_code dll species_idx
  = string_result "Sindex_SpecCode" species_idx
      (Sindex_SpecCode dll (c_short species_idx))
  /\ get_species_name dll species_idx
     = string_result "Sindex_SpecName" species_idx
         (Sindex_SpecName dll (c_short species_idx))
  /\ get_curve_name dll curve_idx
     = string_result "Sindex_CurveName" curve_idx
         (Sindex_CurveName dll (c_short curve_idx))
  /\ get_curve_source dll curve_idx
     = string_result "Sindex_CurveSource" curve_idx
         (Sindex_CurveSource dll (c_short curve_idx))
  /\ get_curve_notes dll curve_idx
     = string_result "Sindex_CurveNotes" curve_idx
         (Sindex_CurveNotes dll (c_short curve_idx))
  /\ ~ signals code (get_species_code dll species_idx)
  /\ ~ signals code (get_species_name dll species_idx)
  /\ ~ signals code (get_curve_name dll curve_idx)
  /\ ~ signals code (get_curve_source dll curve_idx)
  /\ ~ signals code (get_curve_notes dll curve_idx).
Proof.
  unfold get_species_code, get_species_name, get_curve_name,
    get_curve_source, get_curve_notes.
  rewrite !string_accessor.
  repeat split; apply string_result_never_signals.
Qed.

(** ** Registries behind the entry points *)

Lemma at_index_is_Some {A} (l : list A) (i : Z) :
  is_Some (at_index l i) <-> 0 <= i < Z.of_nat (length l).
Proof.
  unfold at_index. destruct (Z.ltb_spec i 0) as [Hneg | Hpos].
  - split; [intros [x Hx]; discriminate | lia].
  - rewrite lookup_lt_is_Some. lia.
Qed.

Lemma at_index_None {A} (l : list A) (i : Z) :
  at_index l i = None <-> ~ (0 <= i < Z.of_nat (length l)).
Proof.
  rewrite <- at_index_is_Some, <- eq_None_not_Some. reflexivity.
Qed.

Lemma outcome_bind_return {A B} (a : A) (l : list LogRecord) (k : A -> Py B) :
  outcome (bind (Return a, l) k) = outcome (k a).
Proof. unfold outcome, bind. destruct (k a). reflexivity. Qed.

Lemma bind_return {A B} (a : A) (l : list LogRecord) (k : A -> Py B) :
  bind (Return a, l) k = (fst (k a), (l ++ snd (k a))%list).
Proof. unfold bind. destruct (k a). reflexivity. Qed.

Lemma outcome_bind_ret {A B} (c : Py A) (f : A -> B) (a : A) :
  outcome c = Return a -> outcome (bind c (fun x => ret (f x))) = Return (f a).
Proof.
  destruct c as [r l]. unfold outcome. cbn [fst]. intros ->. reflexivity.
Qed.

Section SpeciesWalk.

Variable dll : SindexDLL.
Variable T : Tables.
Hypothesis Hserves : serves_species dll T.
Hypothesis Hshort : short_indexed T.

Local Abbreviation n := (Z.of_nat (length (species T))).

Lemma nextSpecies_inside (i : Z) :
  0 <= i -> i + 1 < n -> nextSpecies T i = Value (i + 1).
Proof.
  intros H0 H1. unfold nextSpecies.
  destruct (proj2 (at_index_is_Some (species T) i)) as [x ->]; [lia |].
  destruct (proj2 (at_index_is_Some (species T) (i + 1))) as [y ->];
    [lia | reflexivity].
Qed.

Lemma nextSpecies_last (i : Z) :
  0 <= i -> i + 1 = n -> nextSpecies T i = Failure EndOfSequence.
Proof.
  intros H0 H1. unfold nextSpecies.
  destruct (proj2 (at_index_is_Some (species T) i)) as [x ->]; [lia |].
  rewrite (proj2 (at_index_None (species T) (i + 1))); [reflexivity |].
  lia.
Qed.

Lemma get_next_species_inside (i : Z) :
  0 <= i -> i + 1 < n ->
  get_next_species dll i
  = (Return (i + 1), [Debug "Sindex_NextSpecies" [AInt i] (AInt (i + 1))]).
Proof.
  intros H0 H1. destruct Hshort as [Hs _].
  unfold get_next_species. destruct Hserves as [_ ->].
  rewrite (c_short_id i) by lia.
  rewrite nextSpecies_inside by assumption. cbn [short_of_outcome].
  rewrite (c_short_id (i + 1)) by lia. cbv zeta.
  by_status; try lia. reflexivity.
Qed.

Lemma get_next_species_last (i : Z) :
  0 <= i -> i + 1 = n ->
  get_next_species dll i
  = (Return (-1),
     [DebugText "Sindex_NextSpecies() -> Last defined species index"]).
Proof.
  intros H0 H1. destruct Hshort as [Hs _].
  unfold get_next_species. destruct Hserves as [_ ->].
  rewrite (c_short_id i) by lia.
  rewrite nextSpecies_last by assumption. reflexivity.
Qed.

Lemma species_from_walk (m : nat) :
  forall (fuel : nat) (i : Z),
    (1 <= m <= fuel)%nat -> 0 <= i -> i + Z.of_nat m = n ->
    outcome (species_from dll fuel i) = Return (Some (seqZ i (Z.of_nat m))).
Proof.
  induction m as [|m IH]; intros fuel i Hm H0 Hn; [lia |].
  destruct fuel as [|fuel]; [lia |].
  cbn [species_from]. destruct (Z.eqb_spec i (-1)); [lia |].
  destruct m as [|m].
  - rewrite get_next_species_last by lia.
    destruct fuel; reflexivity.
  - rewrite get_next_species_inside by lia.
    specialize (IH fuel (i + 1) ltac:(lia) ltac:(lia) ltac:(lia)).
    rewrite outcome_bind_return.
    rewrite (outcome_bind_ret _ (fmap (cons i)) _ IH).
    rewrite (Nat2Z.inj_succ (S m)), (seqZ_cons i) by lia.
    rewrite Z.pred_succ. replace (Z.succ i) with (i + 1) by lia.
    reflexivity.
Qed.

Lemma species_from_fuel (m : nat) :
  forall (fuel fuel' : nat) (i : Z),
    (1 <= m)%nat -> (m <= fuel)%nat -> (m <= fuel')%nat ->
    0 <= i -> i + Z.of_nat m = n ->
    species_from dll fuel i = species_from dll fuel' i.
Proof.
  induction m as [|m IH]; intros fuel fuel' i Hm Hf Hf' H0 Hn; [lia |].
  destruct fuel as [|fuel]; [lia |]. destruct fuel' as [|fuel']; [lia |].
  cbn [species_from]. destruct (Z.eqb_spec i (-1)); [lia |].
  destruct m as [|m].
  - rewrite get_next_species_last by lia.
    destruct fuel, fuel'; reflexivity.
  - rewrite get_next_species_inside by lia.
    rewrite !bind_return.
    rewrite (IH fuel fuel' (i + 1)) by lia. reflexivity.
Qed.

End SpeciesWalk.

Lemma get_first_species_nonempty (dll : SindexDLL) (T : Tables) :
  serves_species dll T -> species T <> [] ->
  get_first_species dll = (Return 0, [Debug "Sindex_FirstSpecies" [] (AInt 0)]).
Proof.
  intros [Hfirst _] Hne. unfold get_first_species. rewrite Hfirst.
  unfold firstSpecies. destruct (species T); [congruence | reflexivity].
Qed.

Lemma get_first_species_empty (dll : SindexDLL) (T : Tables) :
  serves_species dll T -> species T = [] ->
  get_first_species dll
  = (Return (-1), [Error "Sindex_FirstSpecies" [] "no answer was generated"]).
Proof.
  intros [Hfirst _] Hempty. unfold get_first_species. rewrite Hfirst.
  unfold firstSpecies. rewrite Hempty. reflexivity.
Qed.

Lemma all_species_walk (dll : SindexDLL) (T : Tables) (fuel : nat) :
  serves_species dll T -> short_indexed T ->
  (length (species T) <= fuel)%nat ->
  outcome (all_species dll fuel)
  = Return (Some (seqZ 0 (Z.of_nat (length (species T))))).
Proof.
  intros Hserves Hshort Hfuel. unfold all_species.
  destruct (species T) as [|sp rest] eqn:Hspecies.
  - rewrite (get_first_species_empty dll T Hserves Hspecies).
    rewrite outcome_bind_return. destruct fuel; reflexivity.
  - rewrite (get_first_species_nonempty dll T Hserves)
      by (rewrite Hspecies; discriminate).
    rewrite outcome_bind_return. rewrite <- Hspecies in *.
    assert (1 <= length (species T))%nat by (rewrite Hspecies; simpl; lia).
    apply (species_from_walk dll T Hserves Hshort (length (species T))); lia.
Qed.

Lemma all_species_fuel (dll : SindexDLL) (T : Tables) (fuel : nat) :
  serves_species dll T -> short_indexed T ->
  (length (species T) <= fuel)%nat ->
  all_species dll fuel = all_species dll (length (species T)).
Proof.
  intros Hserves Hshort Hfuel. unfold all_species.
  destruct (species T) as [|sp rest] eqn:Hspecies.
  - rewrite (get_first_species_empty dll T Hserves Hspecies).
    rewrite !bind_return. destruct fuel; reflexivity.
  - rewrite (get_first_species_nonempty dll T Hserves)
      by (rewrite Hspecies; discriminate).
    rewrite !bind_return. rewrite <- Hspecies in *.
    assert (1 <= length (species T))%nat by (rewrite Hspecies; simpl; lia).
    rewrite (species_from_fuel dll T Hserves Hshort (length (species T)) fuel
               (length (species T)) 0); first [reflexivity | lia].
Qed.

(** *** Calls do not depend on the prototypes they find *)

Lemma restype_after_set (fn : string) (type : CType)
    (store : gmap string Prototype) :
  restype (prototype_of (set_restype fn type store) fn) = type.
Proof. unfold prototype_of, set_restype. rewrite lookup_insert_eq. reflexivity. Qed.

Lemma prototype_of_other (fn fn' : string) (type : CType)
    (types : list CType) (store : gmap string Prototype) :
  fn <> fn' ->
  prototype_of (set_restype fn type store) fn' = prototype_of store fn'
  /\ prototype_of (set_argtypes fn types store) fn' = prototype_of store fn'.
Proof.
  intros Hne. unfold prototype_of, set_restype, set_argtypes.
  rewrite !lookup_insert_ne by exact Hne. split; reflexivity.
Qed.

Lemma get_first_species_in_agrees (dll : SindexDLL)
    (store : gmap string Prototype) :
  fst (get_first_species_in dll store) = get_first_species dll.
Proof.
  unfold get_first_species_in. cbv zeta. cbn [fst].
  rewrite restype_after_set. reflexivity.
Qed.

Lemma get_next_species_in_agrees (dll : SindexDLL) (idx : Z)
    (store : gmap string Prototype) :
  fst (get_next_species_in dll idx store) = get_next_species dll idx.
Proof.
  unfold get_next_species_in. cbv zeta. cbn [fst].
  rewrite restype_after_set. reflexivity.
Qed.

Lemma get_next_species_in_keeps_first (dll : SindexDLL) (idx : Z)
    (store : gmap string Prototype) :
  prototype_of (snd (get_next_species_in dll idx store)) "Sindex_FirstSpecies"
  = prototype_of store "Sindex_FirstSpecies".
Proof.
  unfold get_next_species_in. cbv zeta. cbn [snd].
  rewrite (proj1 (prototype_of_other "Sindex_NextSpecies" "Sindex_FirstSpecies"
                    c_short_type [] _ ltac:(discriminate))).
  rewrite (proj2 (prototype_of_other "Sindex_NextSpecies" "Sindex_FirstSpecies"
                    c_short_type [c_short_type] _ ltac:(discriminate))).
  reflexivity.
Qed.

Lemma species_from_in_agrees (dll : SindexDLL) (fuel : nat) :
  forall (idx : Z) (store : gmap string Prototype),
    fst (species_from_in dll fuel idx store) = species_from dll fuel idx
    /\ prototype_of (snd (species_from_in dll fuel idx store))
         "Sindex_FirstSpecies"
       = prototype_of store "Sindex_FirstSpecies".
Proof.
  induction fuel as [|fuel IH]; intros idx store;
    cbn [species_from_in species_from];
    destruct (idx =? -1); try (split; reflexivity).
  pose proof (get_next_species_in_agrees dll idx store) as Hcall.
  pose proof (get_next_species_in_keeps_first dll idx store) as Hkeep.
  destruct (get_next_species_in dll idx store) as [called store1].
  cbn [fst snd] in Hcall, Hkeep. rewrite <- Hcall.
  destruct called as [[next | e] log]; [| split; [reflexivity | exact Hkeep]].
  destruct (IH next store1) as [Hwalk Hstore].
  destruct (species_from_in dll fuel next store1) as [walked store2].
  cbn [fst snd] in *. rewrite Hwalk. split; [reflexivity | congruence].
Qed.

Lemma all_species_in_agrees (dll : SindexDLL) (fuel : nat)
    (store : gmap string Prototype) :
  fst (all_species_in dll fuel store) = all_species dll fuel
  /\ restype (prototype_of (snd (all_species_in dll fuel store))
                "Sindex_FirstSpecies") = c_short_type.
Proof.
  unfold all_species_in, all_species.
  pose proof (get_first_species_in_agrees dll store) as Hcall.
  assert (Hset : restype (prototype_of (snd (get_first_species_in dll store))
                            "Sindex_FirstSpecies") = c_short_type)
    by apply restype_after_set.
  destruct (get_first_species_in dll store) as [called store1].
  cbn [fst snd] in Hcall, Hset. rewrite <- Hcall.
  destruct called as [[first | e] log]; [| split; [reflexivity | exact Hset]].
  destruct (species_from_in_agrees dll fuel first store1) as [Hwalk Hstore].
  destruct (species_from_in dll fuel first store1) as [walked store2].
  cbn [fst snd] in *. rewrite Hwalk. split; [reflexivity | congruence].
Qed.

Lemma two_walks_agree (dll : SindexDLL) (fuel : nat)
    (store : gmap string Prototype) :
  two_walks dll fuel store = (all_species dll fuel, all_species dll fuel).
Proof.
  unfold two_walks.
  pose proof (all_species_in_agrees dll fuel store) as [Hone _].
  destruct (all_species_in dll fuel store) as [first_walk store1].
  pose proof (all_species_in_agrees dll fuel store1) as [Htwo _].
  destruct (all_species_in dll fuel store1) as [second_walk store2].
  cbn [fst] in *. congruence.
Qed.

(** C6: on a library that answers the species enumeration from its
    tables, the walk from [get_first_species] through [get_next_species]
    needs as many calls as there are species and yields the indices
    0, 1, ..., n - 1, none for an empty table: each call inside the table
    answers the next index, the call on the last index meets
    EndOfSequence and answers -1, and on an empty table the first call
    already answers -1.  A second walk, made after the first and finding
    the prototypes the first has set (the return type of
    [Sindex_FirstSpecies] is then [c_short], no longer the initial
    [c_int]), yields the same, as does a walk with any larger bound on
    the calls. *)
Theorem species_walk_is_finite_advancing_and_repeatable
    (dll : SindexDLL) (T : Tables)
    (Hserves : serves_species dll T) (Hshort : short_indexed T)
    (store : gmap string Prototype) :
  let n := length (species T) in
  outcome (fst (two_walks dll n store)) = Return (Some (seqZ 0 (Z.of_nat n)))
  /\ snd (two_walks dll n store) = fst (two_walks dll n store)
  /\ restype (prototype_of (snd (all_species_in dll n store))
                "Sindex_FirstSpecies") = c_short_type
  /\ (forall i store', 0 <= i -> i + 1 < Z.of_nat n ->
        outcome (fst (get_next_species_in dll i store')) = Return (i + 1))
  /\ (species T <> [] ->
        nextSpecies T (Z.of_nat n - 1) = Failure EndOfSequence
        /\ forall store',
             fst (get_next_species_in dll (Z.of_nat n - 1) store')
             = (Return (-1),
                [DebugText
                   "Sindex_NextSpecies() -> Last defined species index"]))
  /\ (species T = [] ->
        firstSpecies T = None
        /\ forall store',
             outcome (fst (get_first_species_in dll store')) = Return (-1))
  /\ (forall fuel, (n <= fuel)%nat ->
        two_walks dll fuel store = two_walks dll n store).
Proof.
  intros n. repeat apply conj.
  - rewrite two_walks_agree. cbn [fst].
    apply (all_species_walk dll T n Hserves Hshort). subst n. lia.
  - rewrite two_walks_agree. reflexivity.
  - apply all_species_in_agrees.
  - intros i store' H0 H1. rewrite get_next_species_in_agrees.
    rewrite (get_next_species_inside dll T Hserves Hshort) by (subst n; lia).
    reflexivity.
  - intros Hne.
    assert (Hn : (1 <= n)%nat).
    { subst n. destruct (species T); [congruence | simpl; lia]. }
    split.
    + apply nextSpecies_last; subst n; lia.
    + intros store'. rewrite get_next_species_in_agrees.
      apply (get_next_species_last dll T Hserves Hshort); subst n; lia.
  - intros Hempty. split.
    + unfold firstSpecies. rewrite Hempty. reflexivity.
    + intros store'. rewrite get_first_species_in_agrees.
      rewrite (get_first_species_empty dll T Hserves Hempty). reflexivity.
  - intros fuel Hfuel. rewrite !two_walks_agree.
    rewrite (all_species_fuel dll T fuel Hserves Hshort Hfuel).
    reflexivity.
Qed.

Lemma species_walk_demo :
  outcome (fst (two_walks Demo.dll 2 ∅)) = Return (Some [0; 1])
  /\ snd (two_walks Demo.dll 2 ∅) = fst (two_walks Demo.dll 2 ∅).
Proof.
  destruct (species_walk_is_finite_advancing_and_repeatable Demo.dll
              Demo.tables
              ltac:(split; [reflexivity | intros i; reflexivity])
              ltac:(split; simpl; lia) ∅) as (Hwalk & Hagain & _).
  split; [exact Hwalk | exact Hagain].
Defined.

(** ** Species-to-species conversion *)

(** C5: on a library that answers [Sindex_SIToSI] from its tables, for a
    species index [sp] of the table and any site index [si], the
    conversion from [sp] to [sp] succeeds with [si], and
    [calc_convert_site sp si sp] returns [si]. *)
Theorem same_species_conversion_is_identity
    (dll : SindexDLL) (T : Tables) (sp : Z) (si : spec_float)
    (Hserves : serves_conversion dll T) (Hshort : short_indexed T)
    (Hvalid : is_Some (at_index (species T) sp)) :
  convertSiteIndex T sp si sp = Value si
  /\ calc_convert_site dll sp si sp
     = (Return si,
        [Debug "Sindex_SIToSI" [AInt sp; AFloat si; AInt sp] (AFloat si)]).
Proof.
  assert (Hconv : convertSiteIndex T sp si sp = Value si).
  { unfold convertSiteIndex. destruct Hvalid as [s ->].
    rewrite Z.eqb_refl. reflexivity. }
  split; [exact Hconv |].
  apply at_index_is_Some in Hvalid. destruct Hshort as [Hs _].
  unfold calc_convert_site, c_double.
  rewrite (c_short_id sp) by lia.
  rewrite Hserves, Hconv. reflexivity.
Qed.

Lemma same_species_conversion_demo :
  convertSiteIndex Demo.tables 1 twenty 1 = Value twenty
  /\ calc_convert_site Demo.dll 1 twenty 1
     = (Return twenty,
        [Debug "Sindex_SIToSI" [AInt 1; AFloat twenty; AInt 1]
           (AFloat twenty)]).
Proof.
  apply (same_species_conversion_is_identity Demo.dll Demo.tables 1 twenty).
  - intros src si tgt cell. reflexivity.
  - split; simpl; lia.
  - eexists. reflexivity.
Defined.

(** ** The capped iteration *)

Lemma iterate_rounds {S : Type} (cap : nat) (step : S -> Step S) (s : S) :
  (snd (iterate cap step s) <= cap)%nat.
Proof.
  revert s. induction cap as [|cap IH]; intros s; cbn [iterate]; [simpl; lia |].
  destruct (step s) as [si | s' | k]; cbn [snd]; try lia.
  specialize (IH s'). destruct (iterate cap step s'). cbn [snd] in *. lia.
Qed.

Lemma iterate_exhausted {S : Type} (cap : nat) (step : S -> Step S) (s : S) :
  is_Some (state_after cap step s) ->
  iterate cap step s = (Failure NoConvergence, cap).
Proof.
  revert s. induction cap as [|cap IH]; intros s Hsome; [reflexivity |].
  cbn [iterate state_after] in *.
  destruct (step s) as [si | s' | k];
    try (destruct Hsome as [x Hx]; discriminate Hx).
  rewrite (IH s' Hsome). reflexivity.
Qed.

Lemma iterate_converged {S : Type} (cap : nat) (step : S -> Step S) (s : S)
    (si : spec_float) (n : nat) :
  iterate cap step s = (Value si, n) ->
  (1 <= n <= cap)%nat
  /\ exists s', state_after (n - 1) step s = Some s' /\ step s' = Converged si.
Proof.
  revert s n. induction cap as [|cap IH]; intros s n Hit;
    cbn [iterate] in Hit; [discriminate Hit |].
  destruct (step s) as [si' | s' | k] eqn:Hstep.
  - injection Hit as <- <-. split; [lia |]. exists s. split; [reflexivity | exact Hstep].
  - destruct (iterate cap step s') as [r m] eqn:Hrec.
    injection Hit as -> <-.
    destruct (IH s' m Hrec) as [Hm (s'' & Hafter & Hconv)].
    split; [lia |]. exists s''. split; [| exact Hconv].
    replace (Datatypes.S m - 1)%nat with (Datatypes.S (m - 1)) by lia.
    cbn [state_after]. rewrite Hstep. exact Hafter.
  - discriminate Hit.
Qed.

Lemma solve_rounds (T : Tables) (sp : Z) (height age : spec_float)
    (t : AgeType) (m : EstimateMethod) :
  (snd (solve_site_index T sp height age t m) <= iteration_cap T)%nat.
Proof.
  unfold solve_site_index.
  destruct (at_index (species T) sp) as [s|]; [| simpl; lia].
  destruct (at_index (curves T) (sp_default_curve s)) as [c|]; [| simpl; lia].
  unfold model_site_index. destruct m.
  - pose proof (iterate_rounds (iteration_cap T)
                  (cm_step (cu_model c) height age t)
                  (cm_start (cu_model c) height age t)) as Hr.
    destruct (iterate _ _ _) as [[si | k] n]; cbn [snd] in *;
      [destruct (SFleb si breast_height) |]; cbn [snd]; exact Hr.
  - destruct (cm_direct (cu_model c)); simpl; lia.
Qed.

(** The demo library on the two inputs: height 10 at age 50 converges in
    19 rounds, height 200 is outside the bracket and meets the cap. *)
Example bisection_converges :
  solve_site_index Demo.tables 1 (Demo.double_of_Z 10) (Demo.double_of_Z 50)
    TOTAL ITERATE
  = (Value (S754_finite false 5629521009049600 (-49)), 19%nat).
Proof. vm_compute. reflexivity. Qed.

Example bisection_meets_the_cap :
  solve_site_index Demo.tables 1 (Demo.double_of_Z 200) (Demo.double_of_Z 50)
    TOTAL ITERATE
  = (Failure NoConvergence, 100%nat).
Proof. vm_compute. reflexivity. Qed.

(** * Further properties of the interface module *)

(** ** Indices are truncated to sixteen bits *)

Lemma c_short_periodic (z k : Z) : c_short (z + 65536 * k) = c_short z.
Proof.
  unfold c_short. rewrite !wrap_signed_16.
  rewrite (Z.mul_comm 65536 k), Z_mod_plus_full. reflexivity.
Qed.

Lemma c_short_idempotent (z : Z) : c_short (c_short z) = c_short z.
Proof. apply c_short_id, c_short_range. Qed.

(** X1: an index lookup sees its index arguments modulo 65536: adding a
    multiple of 65536 to any of them does not change what is returned. *)
Theorem lookups_see_indices_modulo_65536
    (dll : SindexDLL) (idx species_idx regen_type curve_idx k k' : Z) :
  outcome (get_next_species dll (idx + 65536 * k))
  = outcome (get_next_species dll idx)
  /\ outcome (get_def_curve dll (species_idx + 65536 * k))
     = outcome (get_def_curve dll species_idx)
  /\ outcome (get_def_curve_est dll (species_idx + 65536 * k)
                (regen_type + 65536 * k'))
     = outcome (get_def_curve_est dll species_idx regen_type)
  /\ outcome (get_def_gi_curve dll (species_idx + 65536 * k))
     = outcome (get_def_gi_curve dll species_idx)
  /\ outcome (get_first_curve dll (species_idx + 65536 * k))
     = outcome (get_first_curve dll species_idx)
  /\ outcome (get_next_curve dll (species_idx + 65536 * k)
                (curve_idx + 65536 * k'))
     = outcome (get_next_curve dll species_idx curve_idx).
Proof.
  unfold get_next_species, get_def_curve, get_def_curve_est,
    get_def_gi_curve, get_first_curve, get_next_curve.
  rewrite !c_short_periodic. cbv zeta.
  repeat apply conj; by_status; reflexivity.
Qed.

Lemma string_result_outcome (fn fn' : string) (idx idx' : Z)
    (p : option (list Byte.byte)) :
  outcome (string_result fn idx p) = outcome (string_result fn' idx' p).
Proof.
  unfold string_result. destruct (c_char_p p) as [bs|]; [| reflexivity].
  destruct (utf8_decode bs); reflexivity.
Qed.

(** X2: a string accessor sees its index modulo 65536 as well. *)
Theorem accessors_see_indices_modulo_65536
    (dll : SindexDLL) (species_idx curve_idx k : Z) :
  outcome (get_species_code dll (species_idx + 65536 * k))
  = outcome (get_species_code dll species_idx)
  /\ outcome (get_species_name dll (species_idx + 65536 * k))
     = outcome (get_species_name dll species_idx)
  /\ outcome (get_curve_name dll (curve_idx + 65536 * k))
     = outcome (get_curve_name dll curve_idx)
  /\ outcome (get_curve_source dll (curve_idx + 65536 * k))
     = outcome (get_curve_source dll curve_idx)
  /\ outcome (get_curve_notes dll (curve_idx + 65536 * k))
     = outcome (get_curve_notes dll curve_idx).
Proof.
  unfold get_species_code, get_species_name, get_curve_name,
    get_curve_source, get_curve_notes.
  rewrite !string_accessor, !c_short_periodic.
  repeat apply conj; apply string_result_outcome.
Qed.

Ltac by_cells :=
  match goal with
  | |- context [let '(_, _) := ?r in _] => destruct r as [? ?]
  end;
  cbv zeta; by_status; reflexivity.

(** X3: so do the numeric wrappers, for every index and enumeration
    argument that is passed as a C short. *)
Theorem calcs_see_shorts_modulo_65536
    (dll : SindexDLL)
    (species_idx curve_idx spec_idx target_spec_idx use_bh estimate_type : Z)
    (site_class fiz k k' k'' : Z)
    (height age site_index yrs_to_breast_height : spec_float) :
  outcome (calc_site dll (species_idx + 65536 * k) height age
             (use_bh + 65536 * k') (estimate_type + 65536 * k''))
  = outcome (calc_site dll species_idx height age use_bh estimate_type)
  /\ outcome (calc_age dll (curve_idx + 65536 * k) site_index height
                yrs_to_breast_height (use_bh + 65536 * k'))
     = outcome (calc_age dll curve_idx site_index height
                  yrs_to_breast_height use_bh)
  /\ outcome (calc_height dll (curve_idx + 65536 * k) site_index age
                yrs_to_breast_height (use_bh + 65536 * k'))
     = outcome (calc_height dll curve_idx site_index age
                  yrs_to_breast_height use_bh)
  /\ outcome (calc_y2bh dll (curve_idx + 65536 * k) site_index)
     = outcome (calc_y2bh dll curve_idx site_index)
  /\ outcome (calc_convert_site dll (spec_idx + 65536 * k) site_index
                (target_spec_idx + 65536 * k'))
     = outcome (calc_convert_site dll spec_idx site_index target_spec_idx)
  /\ outcome (calc_site_class_to_site_index dll (species_idx + 65536 * k)
                site_class fiz)
     = outcome (calc_site_class_to_site_index dll species_idx site_class fiz).
Proof.
  unfold calc_site, calc_age, calc_height, calc_y2bh, calc_convert_site,
    calc_site_class_to_site_index, c_char, c_double.
  rewrite !c_short_periodic.
  repeat apply conj; try by_cells.
  destruct ((0 <=? site_class) && (site_class <? 256)); [| reflexivity].
  destruct ((0 <=? fiz) && (fiz <? 256)); [| reflexivity].
  cbn [bind ret app].
  destruct (Sindex_SCToSI dll (c_short species_idx) site_class fiz float_zero)
    as [status cell].
  cbv zeta. by_status; reflexivity.
Qed.

(** ** The shape of each wrapper *)

Lemma get_first_species_shape (dll : SindexDLL) :
  get_first_species dll
  = lookup_result "Sindex_FirstSpecies" [] (Sindex_FirstSpecies dll).
Proof. unfold get_first_species, lookup_result. by_status; reflexivity. Qed.

Lemma get_next_species_shape (dll : SindexDLL) (idx : Z) :
  get_next_species dll idx
  = next_result "Sindex_NextSpecies() -> Last defined species index"
      "Sindex_NextSpecies" [AInt idx] (Sindex_NextSpecies dll (c_short idx)).
Proof.
  unfold get_next_species, next_result, lookup_result. cbv zeta.
  by_status; reflexivity.
Qed.

Lemma get_def_curve_shape (dll : SindexDLL) (species_idx : Z) :
  get_def_curve dll species_idx
  = lookup_result "Sindex_DefCurve" [AInt species_idx]
      (Sindex_DefCurve dll (c_short species_idx)).
Proof. unfold get_def_curve, lookup_result. by_status; reflexivity. Qed.

Lemma get_def_curve_est_shape (dll : SindexDLL) (species_idx regen_type : Z) :
  get_def_curve_est dll species_idx regen_type
  = lookup_result "Sindex_DefCurveEst" [AInt species_idx; AInt regen_type]
      (Sindex_DefCurveEst dll (c_short species_idx) (c_short regen_type)).
Proof. unfold get_def_curve_est, lookup_result. by_status; reflexivity. Qed.

Lemma get_def_gi_curve_shape (dll : SindexDLL) (species_idx : Z) :
  get_def_gi_curve dll species_idx
  = lookup_result "Sindex_DefGICurve" [AInt species_idx]
      (Sindex_DefGICurve dll (c_short species_idx)).
Proof. unfold get_def_gi_curve, lookup_result. by_status; reflexivity. Qed.

Lemma get_first_curve_shape (dll : SindexDLL) (species_idx : Z) :
  get_first_curve dll species_idx
  = lookup_result "Sindex_FirstCurve" [AInt species_idx]
      (Sindex_FirstCurve dll (c_short species_idx)).
Proof. unfold get_first_curve, lookup_result. by_status; reflexivity. Qed.

Lemma get_next_curve_shape (dll : SindexDLL) (species_idx curve_idx : Z) :
  get_next_curve dll species_idx curve_idx
  = next_result
      "Sindex_NextCurve() -> Last defined curve index for this species"
      "Sindex_NextCurve" [AInt species_idx; AInt curve_idx]
      (Sindex_NextCurve dll (c_short species_idx) (c_short curve_idx)).
Proof.
  unfold get_next_curve, next_result, lookup_result. cbv zeta.
  by_status; reflexivity.
Qed.

Ltac by_shape :=
  match goal with
  | |- context [let '(_, _) := ?r in _] => destruct r as [? ?]
  end;
  unfold calc_result; cbn [fst snd]; cbv zeta; by_status; reflexivity.

Lemma calc_site_shape (dll : SindexDLL) (species_idx : Z)
    (height age : spec_float) (use_bh estimate_type : Z) :
  calc_site dll species_idx height age use_bh estimate_type
  = calc_result "Sindex_HtAgeToSI"
      [AInt species_idx; AFloat age; AInt use_bh; AFloat height;
       AInt estimate_type]
      (Sindex_HtAgeToSI dll (c_short species_idx) age (c_short use_bh) height
         (c_short estimate_type) float_zero).
Proof. unfold calc_site, c_double. by_shape. Qed.

Lemma calc_age_shape (dll : SindexDLL) (curve_idx : Z)
    (site_index height yrs_to_breast_height : spec_float) (use_bh : Z) :
  calc_age dll curve_idx site_index height yrs_to_breast_height use_bh
  = calc_result "Sindex_HtSIToAge"
      [AInt curve_idx; AFloat height; AInt use_bh; AFloat site_index;
       AFloat yrs_to_breast_height]
      (Sindex_HtSIToAge dll (c_short curve_idx) height (c_short use_bh)
         site_index yrs_to_breast_height float_zero).
Proof. unfold calc_age, c_double. by_shape. Qed.

Lemma calc_height_shape (dll : SindexDLL) (curve_idx : Z)
    (site_index age yrs_to_breast_height : spec_float) (use_bh : Z) :
  calc_height dll curve_idx site_index age yrs_to_breast_height use_bh
  = calc_result "Sindex_AgeSIToHt"
      [AInt curve_idx; AFloat age; AInt use_bh; AFloat site_index;
       AFloat yrs_to_breast_height]
      (Sindex_AgeSIToHt dll (c_short curve_idx) age (c_short use_bh)
         site_index yrs_to_breast_height float_zero).
Proof. unfold calc_height, c_double. by_shape. Qed.

Lemma calc_y2bh_shape (dll : SindexDLL) (curve_idx : Z) (site_index : spec_float) :
  calc_y2bh dll curve_idx site_index
  = calc_result "Sindex_Y2BH" [AInt curve_idx; AFloat site_index]
      (Sindex_Y2BH dll (c_short curve_idx) site_index float_zero).
Proof. unfold calc_y2bh, c_double. by_shape. Qed.

Lemma calc_convert_site_shape (dll : SindexDLL) (spec_idx : Z)
    (site_index : spec_float) (target_spec_idx : Z) :
  calc_convert_site dll spec_idx site_index target_spec_idx
  = calc_result "Sindex_SIToSI"
      [AInt spec_idx; AFloat site_index; AInt target_spec_idx]
      (Sindex_SIToSI dll (c_short spec_idx) site_index
         (c_short target_spec_idx) float_zero).
Proof. unfold calc_convert_site, c_double. by_shape. Qed.

Lemma calc_site_class_shape (dll : SindexDLL) (species_idx site_class fiz : Z) :
  calc_site_class_to_site_index dll species_idx site_class fiz
  = if (0 <=? site_class) && (site_class <? 256)
       && ((0 <=? fiz) && (fiz <? 256))
    then calc_result "Sindex_SCToSI"
           [AInt species_idx; AInt site_class; AInt fiz]
           (Sindex_SCToSI dll (c_short species_idx) site_class fiz float_zero)
    else (Raise TypeError, []).
Proof.
  unfold calc_site_class_to_site_index, c_char, c_double.
  destruct ((0 <=? site_class) && (site_class <? 256)); [| reflexivity].
  destruct ((0 <=? fiz) && (fiz <? 256)); [| reflexivity].
  cbn [bind ret app andb].
  destruct (Sindex_SCToSI dll (c_short species_idx) site_class fiz float_zero)
    as [status cell].
  unfold calc_result; cbn [fst snd]; cbv zeta. by_status; reflexivity.
Qed.

Lemma get_version_number_shape (lib : SindexLibrary) :
  get_version_number lib
  = (Return (version_of (Sindex_VersionNumber lib)),
     [Debug "Sindex_VersionNumber" []
        (AFloat (version_of (Sindex_VersionNumber lib)))]).
Proof. reflexivity. Qed.

(** ** Negative infinity as the failure value *)

Lemma calc_result_sentinel (fn : string) (args : list PyArg)
    (r : Z * spec_float) :
  outcome (calc_result fn args r) = Return float_neg_inf <-> yields_sentinel r.
Proof.
  unfold calc_result, yields_sentinel, outcome.
  destruct (Z.ltb_spec (c_int (fst r)) 0) as [Hneg | Hpos]; cbn [fst].
  - split; [intros _; left; exact Hneg | reflexivity].
  - split.
    + intros H. right. congruence.
    + intros [Hneg | ->]; [lia | reflexivity].
Qed.

(** X4: a [calc_*] wrapper returns negative infinity exactly when the
    status is negative or the library itself stored negative infinity: a
    result other than negative infinity is always the value of a call
    that succeeded, a result of negative infinity need not be a failure. *)
Theorem calc_sentinel_iff
    (dll : SindexDLL)
    (species_idx curve_idx spec_idx target_spec_idx use_bh estimate_type : Z)
    (height age site_index yrs_to_breast_height : spec_float) :
  (outcome (calc_site dll species_idx height age use_bh estimate_type)
   = Return float_neg_inf
   <-> yields_sentinel
         (site_answer dll species_idx height age use_bh estimate_type))
  /\ (outcome (calc_age dll curve_idx site_index height yrs_to_breast_height
                 use_bh) = Return float_neg_inf
      <-> yields_sentinel
            (age_answer dll curve_idx site_index height yrs_to_breast_height
               use_bh))
  /\ (outcome (calc_height dll curve_idx site_index age yrs_to_breast_height
                 use_bh) = Return float_neg_inf
      <-> yields_sentinel
            (height_answer dll curve_idx site_index age yrs_to_breast_height
               use_bh))
  /\ (outcome (calc_y2bh dll curve_idx site_index) = Return float_neg_inf
      <-> yields_sentinel (y2bh_answer dll curve_idx site_index))
  /\ (outcome (calc_convert_site dll spec_idx site_index target_spec_idx)
      = Return float_neg_inf
      <-> yields_sentinel
            (convert_answer dll spec_idx site_index target_spec_idx)).
Proof.
  rewrite calc_site_shape, calc_age_shape, calc_height_shape, calc_y2bh_shape,
    calc_convert_site_shape.
  repeat apply conj; apply calc_result_sentinel.
Qed.

(** ** Messages and statuses *)

Lemma get_sindex_err_msg_outside (code : Z) :
  ~ (-12 <= code <= -1) -> get_sindex_err_msg code = "unknown issue".
Proof.
  intros Hout. unfold get_sindex_err_msg.
  rewrite error_messages_outside by assumption. reflexivity.
Qed.

Lemma table_codes (a : Z) :
  -12 <= a <= -1 ->
  a = -1 \/ a = -2 \/ a = -3 \/ a = -4 \/ a = -5 \/ a = -6 \/ a = -7
  \/ a = -8 \/ a = -9 \/ a = -10 \/ a = -11 \/ a = -12.
Proof. lia. Qed.

Lemma message_injective (a b : Z) :
  -12 <= a <= -1 -> get_sindex_err_msg a = get_sindex_err_msg b -> a = b.
Proof.
  intros Ha Hmsg. destruct (decide (-12 <= b <= -1)) as [Hb | Hb].
  - apply table_codes in Ha, Hb.
    repeat (destruct Ha as [-> | Ha]);
      repeat (destruct Hb as [-> | Hb]);
      subst; first [reflexivity | vm_compute in Hmsg; discriminate Hmsg].
  - rewrite (get_sindex_err_msg_outside b Hb) in Hmsg.
    apply table_codes in Ha.
    repeat (destruct Ha as [-> | Ha]); subst;
      vm_compute in Hmsg; discriminate Hmsg.
Qed.

(** X5: the message of a code of the table belongs to that code alone: no
    other integer, in the table or outside it, has the same message, and
    it is never "unknown issue". *)
Theorem message_identifies_code (a b : Z) :
  -12 <= a <= -1 ->
  (get_sindex_err_msg a = get_sindex_err_msg b <-> a = b)
  /\ get_sindex_err_msg a <> "unknown issue".
Proof.
  intros Ha. split.
  - split; [apply message_injective; exact Ha | intros ->; reflexivity].
  - intros Hunknown.
    assert (H0 : a = 0); [| lia].
    apply message_injective; [exact Ha |].
    rewrite Hunknown. symmetry. apply get_sindex_err_msg_outside. lia.
Qed.

Lemma message_identifies_code_witness :
  (get_sindex_err_msg (-8) = get_sindex_err_msg (-5) <-> -8 = -5)
  /\ get_sindex_err_msg (-8) <> "unknown issue".
Proof.
  apply (message_identifies_code (-8) (-5)). lia.
Defined.

Ltac conjuncts := repeat match goal with |- _ /\ _ => split end.

Lemma calc_result_signals (fn : string) (args : list PyArg)
    (r : Z * spec_float) (a : Z) :
  -12 <= a <= -1 ->
  (signals a (calc_result fn args r) <-> c_int (fst r) = a).
Proof.
  intros Ha. unfold signals, calc_result, logged.
  destruct (Z.ltb_spec (c_int (fst r)) 0) as [Hneg | Hpos]; cbn [snd].
  - split.
    + intros (f & ar & [Heq | []]). injection Heq as _ _ Hmsg.
      symmetry. apply message_injective; [exact Ha | congruence].
    + intros <-. exists fn, args. left. reflexivity.
  - split.
    + intros (f & ar & [Heq | []]). discriminate Heq.
    + intros Heq. lia.
Qed.

(** X6: a numeric wrapper writes the message of a table code [a] to the
    error logger exactly when the status it met is [a]; the error log
    names the failure that the returned negative infinity hides. *)
Theorem error_log_names_the_status
    (dll : SindexDLL)
    (species_idx curve_idx spec_idx target_spec_idx use_bh estimate_type : Z)
    (site_class fiz : Z)
    (height age site_index yrs_to_breast_height : spec_float) (a : Z)
    (Ha : -12 <= a <= -1) :
  (signals a (calc_site dll species_idx height age use_bh estimate_type)
   <-> c_int (fst (site_answer dll species_idx height age use_bh
                     estimate_type)) = a)
  /\ (signals a (calc_age dll curve_idx site_index height
                   yrs_to_breast_height use_bh)
      <-> c_int (fst (age_answer dll curve_idx site_index height
                        yrs_to_breast_height use_bh)) = a)
  /\ (signals a (calc_height dll curve_idx site_index age
                   yrs_to_breast_height use_bh)
      <-> c_int (fst (height_answer dll curve_idx site_index age
                        yrs_to_breast_height use_bh)) = a)
  /\ (signals a (calc_y2bh dll curve_idx site_index)
      <-> c_int (fst (y2bh_answer dll curve_idx site_index)) = a)
  /\ (signals a (calc_convert_site dll spec_idx site_index target_spec_idx)
      <-> c_int (fst (convert_answer dll spec_idx site_index
                        target_spec_idx)) = a)
  /\ (signals a (calc_site_class_to_site_index dll species_idx site_class fiz)
      <-> (0 <= site_class < 256 /\ 0 <= fiz < 256)
          /\ c_int (fst (class_answer dll species_idx site_class fiz)) = a).
Proof.
  rewrite calc_site_shape, calc_age_shape, calc_height_shape, calc_y2bh_shape,
    calc_convert_site_shape, calc_site_class_shape.
  conjuncts; try (apply calc_result_signals; exact Ha).
  destruct (Z.leb_spec 0 site_class), (Z.ltb_spec site_class 256),
    (Z.leb_spec 0 fiz), (Z.ltb_spec fiz 256); cbn [andb];
    try (split; [intros (f & ar & []) | intros [Hr _]; lia]).
  rewrite calc_result_signals by exact Ha.
  unfold class_answer.
  split; [intros Hs; split; [lia | exact Hs] | intros [_ Hs]; exact Hs].
Qed.

Lemma error_log_names_the_status_witness :
  signals (-1) (calc_y2bh Demo.dll 0 Demo.one)
  /\ ~ signals (-5) (calc_y2bh Demo.dll 0 Demo.one).
Proof.
  destruct (error_log_names_the_status Demo.dll 0 0 0 0 0 0 0 0
              Demo.one Demo.one Demo.one Demo.one (-1) ltac:(lia))
    as (_ & _ & _ & Hone & _).
  destruct (error_log_names_the_status Demo.dll 0 0 0 0 0 0 0 0
              Demo.one Demo.one Demo.one Demo.one (-5) ltac:(lia))
    as (_ & _ & _ & Hfive & _).
  split.
  - apply Hone. reflexivity.
  - intros H. apply Hfive in H. vm_compute in H. discriminate H.
Defined.

Lemma lookup_result_signals (fn : string) (args : list PyArg) (raw a : Z) :
  -12 <= a <= -1 ->
  (signals a (lookup_result fn args raw) <-> c_short raw = a).
Proof.
  intros Ha. unfold signals, lookup_result, logged.
  destruct (Z.ltb_spec (c_short raw) 0) as [Hneg | Hpos]; cbn [snd].
  - split.
    + intros (f & ar & [Heq | []]). injection Heq as _ _ Hmsg.
      symmetry. apply message_injective; [exact Ha | congruence].
    + intros <-. exists fn, args. left. reflexivity.
  - split.
    + intros (f & ar & [Heq | []]). discriminate Heq.
    + intros Heq. lia.
Qed.

Lemma next_result_signals (text fn : string) (args : list PyArg) (raw a : Z) :
  -12 <= a <= -1 ->
  (signals a (next_result text fn args raw) <-> c_short raw = a /\ a <> -4).
Proof.
  intros Ha. unfold next_result.
  destruct (Z.eqb_spec (c_short raw) (-4)) as [Hend | Hnot].
  - split.
    + intros (f & ar & [Heq | []]). discriminate Heq.
    + intros [H1 H2]. congruence.
  - rewrite lookup_result_signals by exact Ha.
    split; [intros <-; split; [reflexivity | exact Hnot] | intros [H _]; exact H].
Qed.

(** X7: an index lookup writes the message of a table code [a] to the
    error logger exactly when the status it met is [a]; for
    [get_next_species] and [get_next_curve] the code -4 is the exception,
    "no answer was generated" is never logged by them. *)
Theorem lookup_error_log_names_the_status
    (dll : SindexDLL) (idx species_idx regen_type curve_idx a : Z)
    (Ha : -12 <= a <= -1) :
  (signals a (get_first_species dll) <-> c_short (Sindex_FirstSpecies dll) = a)
  /\ (signals a (get_next_species dll idx)
      <-> c_short (Sindex_NextSpecies dll (c_short idx)) = a /\ a <> -4)
  /\ (signals a (get_def_curve dll species_idx)
      <-> c_short (Sindex_DefCurve dll (c_short species_idx)) = a)
  /\ (signals a (get_def_curve_est dll species_idx regen_type)
      <-> c_short (Sindex_DefCurveEst dll (c_short species_idx)
                     (c_short regen_type)) = a)
  /\ (signals a (get_def_gi_curve dll species_idx)
      <-> c_short (Sindex_DefGICurve dll (c_short species_idx)) = a)
  /\ (signals a (get_first_curve dll species_idx)
      <-> c_short (Sindex_FirstCurve dll (c_short species_idx)) = a)
  /\ (signals a (get_next_curve dll species_idx curve_idx)
      <-> c_short (Sindex_NextCurve dll (c_short species_idx)
                     (c_short curve_idx)) = a /\ a <> -4).
Proof.
  rewrite get_first_species_shape, get_next_species_shape, get_def_curve_shape,
    get_def_curve_est_shape, get_def_gi_curve_shape, get_first_curve_shape,
    get_next_curve_shape.
  repeat apply conj;
    first [apply lookup_result_signals; exact Ha
          | apply next_result_signals; exact Ha].
Qed.

Lemma lookup_error_log_witness :
  signals (-8) (get_next_species Demo.dll 7)
  /\ ~ signals (-4) (get_next_species Demo.dll 1).
Proof.
  destruct (lookup_error_log_names_the_status Demo.dll 7 0 0 0 (-8)
              ltac:(lia)) as (_ & Hunknown & _).
  destruct (lookup_error_log_names_the_status Demo.dll 1 0 0 0 (-4)
              ltac:(lia)) as (_ & Hlast & _).
  split.
  - apply Hunknown. split; [reflexivity | lia].
  - intros H. apply Hlast in H. destruct H as [_ H]. apply H. reflexivity.
Defined.

(** ** Site class and zone as single bytes *)

(** X8: [calc_site_class_to_site_index] raises exactly when the site
    class or the zone is not an integer in 0..255; the exception is
    [TypeError], and it comes before anything is logged. *)
Theorem site_class_type_error (dll : SindexDLL) (species_idx site_class fiz : Z) :
  let c := calc_site_class_to_site_index dll species_idx site_class fiz in
  (outcome c = Raise TypeError <-> ~ (0 <= site_class < 256 /\ 0 <= fiz < 256))
  /\ (forall e, outcome c = Raise e -> e = TypeError /\ logged c = []).
Proof.
  cbv zeta. rewrite calc_site_class_shape. unfold calc_result.
  destruct (Z.leb_spec 0 site_class), (Z.ltb_spec site_class 256),
    (Z.leb_spec 0 fiz), (Z.ltb_spec fiz 256); cbn [andb];
    try (split; [split; [intros _; lia | reflexivity]
                | intros e He; injection He as <-; split; reflexivity]).
  destruct (c_int (fst _) <? 0); cbn [outcome logged fst snd];
    (split; [split; [discriminate | lia] | intros e He; discriminate He]).
Qed.

(** X9: with a member of [EnumSiteClass] and a member of [EnumCstIntFIZ]
    the call never raises: it returns the library's value or negative
    infinity and logs one record. *)
Theorem enumerated_classes_never_raise
    (dll : SindexDLL) (species_idx site_class fiz : Z)
    (Hclass : In site_class EnumSiteClass.values)
    (Hzone : In fiz EnumCstIntFIZ.values) :
  calc_site_class_to_site_index dll species_idx site_class fiz
  = calc_result "Sindex_SCToSI" [AInt species_idx; AInt site_class; AInt fiz]
      (class_answer dll species_idx site_class fiz)
  /\ outcome (calc_site_class_to_site_index dll species_idx site_class fiz)
     = Return (sentinel_or_value (class_answer dll species_idx site_class fiz)).
Proof.
  assert (Hsc : 0 <= site_class <= 4).
  { unfold EnumSiteClass.values, EnumSiteClass.NONE, EnumSiteClass.LOW,
      EnumSiteClass.POOR, EnumSiteClass.MEDIUM, EnumSiteClass.GOOD in Hclass.
    simpl in Hclass. lia. }
  assert (Hfz : 0 <= fiz <= 1).
  { unfold EnumCstIntFIZ.values, EnumCstIntFIZ.COAST, EnumCstIntFIZ.INTERIOR
      in Hzone.
    simpl in Hzone. lia. }
  rewrite calc_site_class_shape.
  destruct (Z.leb_spec 0 site_class), (Z.ltb_spec site_class 256),
    (Z.leb_spec 0 fiz), (Z.ltb_spec fiz 256); try lia.
  cbn [andb]. split; [reflexivity |].
  unfold calc_result, sentinel_or_value, class_answer.
  destruct (c_int (fst _) <? 0); reflexivity.
Qed.

Lemma enumerated_classes_witness :
  outcome (calc_site_class_to_site_index Demo.dll 0 EnumSiteClass.MEDIUM
             EnumCstIntFIZ.COAST)
  = Return (Demo.double_of_Z 27).
Proof.
  destruct (enumerated_classes_never_raise Demo.dll 0 EnumSiteClass.MEDIUM
              EnumCstIntFIZ.COAST) as [_ H].
  - simpl. tauto.
  - simpl. tauto.
  - exact H.
Defined.

(** ** One record per call *)

Lemma lookup_result_one_record (fn : string) (args : list PyArg) (raw : Z) :
  one_record_if_returned (lookup_result fn args raw).
Proof.
  unfold one_record_if_returned, lookup_result.
  destruct (c_short raw <? 0); reflexivity.
Qed.

Lemma next_result_one_record (text fn : string) (args : list PyArg) (raw : Z) :
  one_record_if_returned (next_result text fn args raw).
Proof.
  unfold next_result. destruct (c_short raw =? -4);
    [reflexivity | apply lookup_result_one_record].
Qed.

Lemma calc_result_one_record (fn : string) (args : list PyArg)
    (r : Z * spec_float) :
  one_record_if_returned (calc_result fn args r).
Proof.
  unfold one_record_if_returned, calc_result.
  destruct (c_int (fst r) <? 0); reflexivity.
Qed.

Lemma string_result_one_record (fn : string) (idx : Z)
    (p : option (list Byte.byte)) :
  one_record_if_returned (string_result fn idx p).
Proof.
  unfold one_record_if_returned, string_result.
  destruct (c_char_p p) as [bs|]; [| reflexivity].
  destruct (utf8_decode bs); reflexivity.
Qed.

(** X10: every wrapper hands exactly one record to a logger when it
    returns, and none when it raises. *)
Theorem one_record_per_call
    (lib : SindexLibrary)
    (idx species_idx regen_type curve_idx spec_idx target_spec_idx : Z)
    (use_bh estimate_type site_class fiz : Z)
    (height age site_index yrs_to_breast_height : spec_float) :
  one_record_if_returned (get_version_number lib)
  /\ one_record_if_returned (get_first_species lib)
  /\ one_record_if_returned (get_next_species lib idx)
  /\ one_record_if_returned (get_species_code lib species_idx)
  /\ one_record_if_returned (get_species_name lib species_idx)
  /\ one_record_if_returned (get_def_curve lib species_idx)
  /\ one_record_if_returned (get_def_curve_est lib species_idx regen_type)
  /\ one_record_if_returned (get_def_gi_curve lib species_idx)
  /\ one_record_if_returned (get_first_curve lib species_idx)
  /\ one_record_if_returned (get_next_curve lib species_idx curve_idx)
  /\ one_record_if_returned (get_curve_name lib curve_idx)
  /\ one_record_if_returned (get_curve_source lib curve_idx)
  /\ one_record_if_returned (get_curve_notes lib curve_idx)
  /\ one_record_if_returned
       (calc_site lib species_idx height age use_bh estimate_type)
  /\ one_record_if_returned
       (calc_age lib curve_idx site_index height yrs_to_breast_height use_bh)
  /\ one_record_if_returned
       (calc_height lib curve_idx site_index age yrs_to_breast_height use_bh)
  /\ one_record_if_returned (calc_y2bh lib curve_idx site_index)
  /\ one_record_if_returned
       (calc_convert_site lib spec_idx site_index target_spec_idx)
  /\ one_record_if_returned
       (calc_site_class_to_site_index lib species_idx site_class fiz).
Proof.
  rewrite get_first_species_shape, get_next_species_shape, get_def_curve_shape,
    get_def_curve_est_shape, get_def_gi_curve_shape, get_first_curve_shape,
    get_next_curve_shape, calc_site_shape, calc_age_shape, calc_height_shape,
    calc_y2bh_shape, calc_convert_site_shape, calc_site_class_shape.
  unfold get_species_code, get_species_name, get_curve_name,
    get_curve_source, get_curve_notes.
  rewrite !string_accessor.
  conjuncts;
    first [ apply lookup_result_one_record
          | apply next_result_one_record
          | apply calc_result_one_record
          | apply string_result_one_record
          | idtac ].
  - reflexivity.
  - destruct (_ && _); [apply calc_result_one_record | reflexivity].
Qed.

(** ** What the string accessors return *)

Lemma drop_while_head {A} (p : A -> bool) (l : list A) (x : A) (w : list A) :
  drop_while p l = x :: w -> p x = false.
Proof.
  induction l as [|y l IH]; cbn [drop_while]; [discriminate |].
  destruct (p y) eqn:Hy; [exact IH |].
  intros H. injection H as <- _. exact Hy.
Qed.

Lemma drop_while_suffix {A} (p : A -> bool) (l : list A) :
  exists pre, l = (pre ++ drop_while p l)%list.
Proof.
  induction l as [|y l [pre IH]]; cbn [drop_while]; [exists []; reflexivity |].
  destruct (p y); [| exists []; reflexivity].
  exists (y :: pre). cbn [app]. f_equal. exact IH.
Qed.

Lemma strip_trimmed (s : PyStr) : trimmed (strip s).
Proof.
  unfold trimmed, strip, lstrip. split; intros c w Heq.
  - apply (f_equal (@rev N)) in Heq. rewrite rev_involutive in Heq.
    cbn [rev] in Heq.
    destruct (drop_while_suffix isspace (rev (drop_while isspace s)))
      as [pre Hpre].
    rewrite Heq in Hpre. apply (f_equal (@rev N)) in Hpre.
    rewrite rev_involutive, app_assoc, rev_unit in Hpre.
    exact (drop_while_head isspace s c _ Hpre).
  - apply (f_equal (@rev N)) in Heq. rewrite rev_involutive, rev_unit in Heq.
    exact (drop_while_head isspace _ c _ Heq).
Qed.

Lemma string_result_trimmed (fn : string) (idx : Z)
    (p : option (list Byte.byte)) :
  returns_trimmed (string_result fn idx p).
Proof.
  unfold returns_trimmed, string_result.
  destruct (c_char_p p) as [bs|]; [| exact I].
  destruct (utf8_decode bs); [apply strip_trimmed | exact I].
Qed.

(** X11: a string that an accessor returns has no white space at either
    end, whatever the library stored. *)
Theorem accessors_return_trimmed_strings
    (dll : SindexDLL) (species_idx curve_idx : Z) :
  returns_trimmed (get_species_code dll species_idx)
  /\ returns_trimmed (get_species_name dll species_idx)
  /\ returns_trimmed (get_curve_name dll curve_idx)
  /\ returns_trimmed (get_curve_source dll curve_idx)
  /\ returns_trimmed (get_curve_notes dll curve_idx).
Proof.
  unfold get_species_code, get_species_name, get_curve_name,
    get_curve_source, get_curve_notes.
  rewrite !string_accessor.
  conjuncts; apply string_result_trimmed.
Qed.

Lemma take_while_all {A} (p : A -> bool) (l : list A) :
  Forall (fun x => p x = true) l -> take_while p l = l.
Proof.
  induction 1 as [|x l Hx _ IH]; cbn [take_while]; [reflexivity |].
  rewrite Hx, IH. reflexivity.
Qed.

Lemma take_while_stop {A} (p : A -> bool) (l : list A) (x : A) (r : list A) :
  Forall (fun x => p x = true) l -> p x = false ->
  take_while p (l ++ x :: r) = l.
Proof.
  intros Hl Hx. induction Hl as [|y l Hy _ IH]; cbn [take_while app].
  - rewrite Hx. reflexivity.
  - rewrite Hy, IH. reflexivity.
Qed.

Lemma c_char_p_c_string (text : list Byte.byte) (p : option (list Byte.byte)) :
  c_string text p -> c_char_p p = Some (map Byte.to_N text).
Proof.
  intros [Hnz Hp].
  assert (Hall : Forall (fun b => negb (N.eqb b 0) = true) (map Byte.to_N text)).
  { clear Hp. induction Hnz as [|b l Hb _ IH]; cbn [map]; [constructor |].
    constructor; [| exact IH].
    destruct (N.eqb_spec (Byte.to_N b) 0); [contradiction | reflexivity]. }
  destruct Hp as [-> | [rest ->]]; unfold c_char_p; f_equal.
  - apply take_while_all. exact Hall.
  - rewrite map_app. cbn [map]. apply take_while_stop; [exact Hall | reflexivity].
Qed.

Lemma utf8_decode_ascii (bs : list N) :
  Forall (fun b => (b < 128)%N) bs -> utf8_decode bs = Some bs.
Proof.
  induction 1 as [|b bs Hb _ IH]; [reflexivity |].
  cbn [utf8_decode]. change 0x80%N with 128%N.
  destruct (N.ltb_spec b 128); [| lia].
  rewrite IH. reflexivity.
Qed.

Lemma string_result_ascii (fn : string) (idx : Z) (text : list Byte.byte)
    (p : option (list Byte.byte)) :
  Forall (fun b => (Byte.to_N b < 128)%N) text -> c_string text p ->
  outcome (string_result fn idx p) = Return (strip (map Byte.to_N text)).
Proof.
  intros Hascii Hp. unfold string_result.
  rewrite (c_char_p_c_string text p Hp).
  rewrite utf8_decode_ascii; [reflexivity |].
  clear Hp. induction Hascii as [|b l Hb _ IH]; cbn [map];
    [constructor | constructor; assumption].
Qed.

(** X12: when the library stores a C string of 7-bit characters, an
    accessor returns those characters, up to the terminating NUL, without
    the white space at the ends. *)
Theorem ascii_c_strings_pass_through
    (dll : SindexDLL) (species_idx curve_idx : Z) (text : list Byte.byte)
    (Hascii : Forall (fun b => (Byte.to_N b < 128)%N) text) :
  (c_string text (Sindex_SpecCode dll (c_short species_idx)) ->
   outcome (get_species_code dll species_idx)
   = Return (strip (map Byte.to_N text)))
  /\ (c_string text (Sindex_SpecName dll (c_short species_idx)) ->
      outcome (get_species_name dll species_idx)
      = Return (strip (map Byte.to_N text)))
  /\ (c_string text (Sindex_CurveName dll (c_short curve_idx)) ->
      outcome (get_curve_name dll curve_idx)
      = Return (strip (map Byte.to_N text)))
  /\ (c_string text (Sindex_CurveSource dll (c_short curve_idx)) ->
      outcome (get_curve_source dll curve_idx)
      = Return (strip (map Byte.to_N text)))
  /\ (c_string text (Sindex_CurveNotes dll (c_short curve_idx)) ->
      outcome (get_curve_notes dll curve_idx)
      = Return (strip (map Byte.to_N text))).
Proof.
  unfold get_species_code, get_species_name, get_curve_name,
    get_curve_source, get_curve_notes.
  rewrite !string_accessor.
  conjuncts; apply string_result_ascii; exact Hascii.
Qed.

Lemma ascii_c_strings_witness :
  outcome (get_species_code Demo.dll 0) = Return [70%N; 100%N].
Proof.
  apply (ascii_c_strings_pass_through Demo.dll 0 0 (Demo.bytes "Fd  ")).
  - repeat constructor.
  - split; [| left; reflexivity].
    repeat constructor; discriminate.
Defined.

(** ** The version number *)

Lemma float_same_eq (x y : spec_float) : float_same x y = true -> x = y.
Proof.
  destruct x as [s | s | | s m e], y as [s' | s' | | s' m' e'];
    cbn [float_same]; try discriminate; try reflexivity.
  - intros H. apply Bool.eqb_prop in H. congruence.
  - intros H. apply Bool.eqb_prop in H. congruence.
  - intros H. apply andb_prop in H. destruct H as [H He].
    apply andb_prop in H. destruct H as [Hs Hm].
    apply Bool.eqb_prop in Hs. apply Pos.eqb_eq in Hm. apply Z.eqb_eq in He.
    congruence.
Qed.

Lemma round_keeps_four_digits :
  forallb round_keeps (seqZ 0 10000) = true.
Proof. vm_compute. reflexivity. Qed.

Lemma round_keeps_short (k : Z) :
  0 <= k <= 9999 -> PyNum.py_round (hundredths k) 2 = hundredths k.
Proof.
  intros Hk. apply float_same_eq.
  pose proof round_keeps_four_digits as Hall.
  rewrite forallb_forall in Hall. apply Hall.
  apply list_elem_of_In, elem_of_seqZ. lia.
Qed.

(** X13: for a library integer from 0 to 9999, versions 0.00 to 99.99,
    [get_version_number] returns the integer divided by 100.0, the float
    nearest to the quotient: rounding to two decimals does not change it;
    one record of it goes to [sindex_log]. *)
Theorem version_number_is_the_quotient (lib : SindexLibrary)
    (Hrange : 0 <= c_short (Sindex_VersionNumber lib) <= 9999) :
  get_version_number lib
  = (Return (hundredths (c_short (Sindex_VersionNumber lib))),
     [Debug "Sindex_VersionNumber" []
        (AFloat (hundredths (c_short (Sindex_VersionNumber lib))))]).
Proof.
  rewrite get_version_number_shape. unfold version_of.
  fold (hundredths (c_short (Sindex_VersionNumber lib))).
  rewrite round_keeps_short by exact Hrange.
  reflexivity.
Qed.

Lemma version_number_witness :
  get_version_number demo_library
  = (Return (hundredths 154), [Debug "Sindex_VersionNumber" [] (AFloat (hundredths 154))]).
Proof.
  apply (version_number_is_the_quotient demo_library).
  vm_compute. split; discriminate.
Defined.

(** ** The root-find, turn by turn *)

Import RootFind.

Lemma run_halted {S : Type} (turns cap : nat) (step : S -> Step S)
    (o : Outcome spec_float) (n : nat) :
  run turns (turn cap step) (Halted o n) = Halted o n.
Proof. induction turns as [|turns IH]; [reflexivity | exact IH]. Qed.

Lemma run_to_the_cap {S : Type} (cap : nat) (step : S -> Step S) (m : nat) :
  forall (n : nat) (s : S),
    (n + m)%nat = cap ->
    run (Datatypes.S m) (turn cap step) (Running s n)
    = Halted (fst (iterate m step s)) (n + snd (iterate m step s)).
Proof.
  induction m as [|m IH]; intros n s Hcap.
  - cbn [run turn iterate fst snd].
    destruct (Nat.leb_spec cap n); [| lia].
    rewrite Nat.add_0_r. reflexivity.
  - change (run (Datatypes.S (Datatypes.S m)) (turn cap step) (Running s n))
      with (run (Datatypes.S m) (turn cap step) (turn cap step (Running s n))).
    cbn [turn iterate]. destruct (Nat.leb_spec cap n); [lia |].
    destruct (step s) as [si | s' | k].
    + rewrite run_halted. cbn [fst snd]. f_equal. lia.
    + rewrite (IH (Datatypes.S n) s') by lia.
      destruct (iterate m step s') as [r k]. cbn [fst snd]. f_equal. lia.
    + rewrite run_halted. cbn [fst snd]. f_equal. lia.
Qed.

Lemma run_past_the_cap {S : Type} (cap : nat) (step : S -> Step S) (s : S)
    (turns : nat) :
  (cap < turns)%nat ->
  run turns (turn cap step) (Running s 0)
  = Halted (fst (iterate cap step s)) (snd (iterate cap step s)).
Proof.
  intros Hturns.
  replace turns with ((turns - Datatypes.S cap) + Datatypes.S cap)%nat by lia.
  generalize (turns - Datatypes.S cap)%nat as extra. intros extra.
  assert (Hsplit : forall (a b : nat) (c : Config S),
            run (a + b) (turn cap step) c
            = run a (turn cap step) (run b (turn cap step) c)).
  { intros a b. induction b as [|b IHb]; intros c.
    - rewrite Nat.add_0_r. reflexivity.
    - rewrite Nat.add_succ_r. cbn [run]. apply IHb. }
  rewrite Hsplit, (run_to_the_cap cap step cap 0 s) by lia.
  apply run_halted.
Qed.

(** Without the test of the cap the loop need not halt: a step that
    always asks to go on keeps it running for ever. *)
Lemma uncapped_loop_keeps_running {S : Type} (s : S) (turns : nat) :
  forall n,
    run turns (turn_uncapped (fun s' : S => Continue s')) (Running s n)
    = Running s (turns + n).
Proof.
  induction turns as [|turns IH]; intros n; [reflexivity |].
  cbn [run turn_uncapped]. rewrite IH. f_equal. lia.
Qed.

Lemma site_index_call_returns (T : Tables) (turns : nat) (sp : Z)
    (height age : spec_float) (t : AgeType) (cell : spec_float) :
  (iteration_cap T < turns)%nat ->
  site_index_call T turns sp height age t cell
  = Some (store_outcome (siteIndexFromHeightAge T sp height age t ITERATE) cell).
Proof.
  intros Hturns.
  unfold site_index_call, siteIndexFromHeightAge, solve_site_index.
  destruct (at_index (species T) sp) as [s|]; [| reflexivity].
  destruct (at_index (curves T) (sp_default_curve s)) as [c|]; [| reflexivity].
  rewrite run_past_the_cap by exact Hturns.
  unfold model_site_index.
  destruct (iterate (iteration_cap T) (cm_step (cu_model c) height age t)
              (cm_start (cu_model c) height age t)) as [[si | k] n];
    cbn [fst snd]; [| reflexivity].
  destruct (SFleb si breast_height); reflexivity.
Qed.

(** C8: on a library that answers [Sindex_HtAgeToSI] from its tables and
    runs the root-find as the loop with the test of the cap, [calc_site]
    in ITERATE mode has returned after [iteration_cap + 1] turns of the
    loop at the latest, whatever the input, and what it returns does not
    change with more turns; the root-find takes at most [iteration_cap]
    rounds; a site index it returns was reached by a round within the
    cap; and when every round up to the cap asks to go on, the engine
    fails NoConvergence and [calc_site] returns negative infinity. *)
Theorem iterate_mode_halts_within_the_cap
    (dll : SindexDLL) (T : Tables) (Hserves : serves_site_index dll T)
    (species_idx : Z) (height age : spec_float) (t : AgeType) :
  let returned :=
    calc_site dll species_idx height age (age_type_code t)
      (estimate_code ITERATE) in
  (forall turns, (iteration_cap T < turns)%nat ->
     calc_site_within T turns species_idx height age t = Some returned)
  /\ (rounds T (c_short species_idx) height age t ITERATE <= iteration_cap T)%nat
  /\ (forall s c,
        at_index (species T) (c_short species_idx) = Some s ->
        at_index (curves T) (sp_default_curve s) = Some c ->
        (forall si,
           siteIndexFromHeightAge T (c_short species_idx) height age t ITERATE
           = Value si ->
           exists n s',
             (n < iteration_cap T)%nat
             /\ state_after n (cm_step (cu_model c) height age t)
                  (cm_start (cu_model c) height age t) = Some s'
             /\ cm_step (cu_model c) height age t s' = Converged si
             /\ outcome returned = Return si)
        /\ (is_Some (state_after (iteration_cap T)
                       (cm_step (cu_model c) height age t)
                       (cm_start (cu_model c) height age t)) ->
            siteIndexFromHeightAge T (c_short species_idx) height age t ITERATE
            = Failure NoConvergence
            /\ outcome returned = Return float_neg_inf)).
Proof.
  intros returned.
  assert (Hcall :
    returned
    = calc_result "Sindex_HtAgeToSI"
        [AInt species_idx; AFloat age; AInt (age_type_code t); AFloat height;
         AInt (estimate_code ITERATE)]
        (store_outcome
           (siteIndexFromHeightAge T (c_short species_idx) height age t ITERATE)
           float_zero)).
  { subst returned. rewrite calc_site_shape.
    rewrite (c_short_id (age_type_code t)) by (destruct t; simpl; lia).
    rewrite (c_short_id (estimate_code ITERATE)) by (simpl; lia).
    rewrite Hserves. reflexivity. }
  split; [| split].
  - intros turns Hturns. unfold calc_site_within.
    rewrite site_index_call_returns by exact Hturns.
    rewrite Hcall. reflexivity.
  - apply solve_rounds.
  - intros s c Hs Hc. split.
    + intros si Hvalue.
      assert (Hout : outcome returned = Return si)
        by (rewrite Hcall, Hvalue; reflexivity).
      unfold siteIndexFromHeightAge, solve_site_index in Hvalue.
      rewrite Hs, Hc in Hvalue. unfold model_site_index in Hvalue.
      destruct (iterate (iteration_cap T) (cm_step (cu_model c) height age t)
                  (cm_start (cu_model c) height age t)) as [[si' | k] n] eqn:Hit;
        [| discriminate Hvalue].
      destruct (SFleb si' breast_height); [discriminate Hvalue |].
      cbn [fst] in Hvalue. injection Hvalue as ->.
      destruct (iterate_converged _ _ _ _ _ Hit) as [Hn (s' & Hafter & Hconv)].
      exists (n - 1)%nat, s'. repeat split; try assumption. lia.
    + intros Hsome.
      assert (Hfail :
        siteIndexFromHeightAge T (c_short species_idx) height age t ITERATE
        = Failure NoConvergence).
      { unfold siteIndexFromHeightAge, solve_site_index. rewrite Hs, Hc.
        unfold model_site_index.
        rewrite (iterate_exhausted _ _ _ Hsome). reflexivity. }
      split; [exact Hfail |]. rewrite Hcall, Hfail. reflexivity.
Qed.

Lemma iterate_mode_demo :
  calc_site_within Demo.tables 101 1 (Demo.double_of_Z 200)
    (Demo.double_of_Z 50) TOTAL
  = Some (calc_site Demo.dll 1 (Demo.double_of_Z 200) (Demo.double_of_Z 50)
            0 0).
Proof.
  destruct (iterate_mode_halts_within_the_cap Demo.dll Demo.tables
              ltac:(intros sp age t height m cell; destruct t, m; reflexivity)
              1 (Demo.double_of_Z 200) (Demo.double_of_Z 50) TOTAL)
    as (Hreturns & _).
  apply Hreturns. simpl. lia.
Defined.

(** On the demo library the call for height 200 at age 50 is still
    running after 50 turns and has returned after 101. *)
Example call_still_running :
  calc_site_within Demo.tables 50 1 (Demo.double_of_Z 200)
    (Demo.double_of_Z 50) TOTAL = None.
Proof. vm_compute. reflexivity. Qed.
